(** * NeuralForge consultation backend (main.py)

    A shallow embedding of the FastAPI application of [main.py]: the
    configuration read from the environment, the two e-mail helpers
    [send_email_notification] and [send_confirmation_email], and the
    endpoints [health_check] and [submit_consultation].

    Python's effects are explicit.  A computation is a function from a
    [World] (the mail relay and the transcript of the SMTP traffic, the
    log, the clock) to an outcome and the world it leaves behind; the
    outcome is a value or a raised exception, and the world keeps what
    happened before the exception was raised. *)

From Stdlib Require Import ZArith Ascii Lia.
From stdpp Require Import base option list strings gmap.

Local Open Scope Z_scope.

(** ** Characters that a string literal cannot hold here *)

Definition dq : string := String (ascii_of_nat 34) EmptyString.
Definition nl : string := String (ascii_of_nat 10) EmptyString.
(** The two UTF-8 bytes of the copyright sign of the confirmation footer. *)
Definition copyright_sign : string :=
  String (ascii_of_nat 194) (String (ascii_of_nat 169) EmptyString).

(** A triple-quoted literal, one list item per source line. *)
Definition lines (ls : list string) : string := String.concat nl ls.

(** ** Exceptions *)

(** What [smtplib] and the socket layer below it raise.  Every class is a
    subclass of [OSError], hence of [Exception]. *)
Inductive smtp_error_class : Type :=
  | SMTPServerDisconnected
  | SMTPConnectError
  | SMTPHeloError
  | SMTPNotSupportedError
  | SMTPAuthenticationError
  | SMTPSenderRefused
  | SMTPRecipientsRefused
  | SMTPDataError
  | SMTPResponseException
  | OSError.

Record relay_fault : Type := mk_fault {
  fault_class : smtp_error_class;
  fault_str : string          (* str(e) *)
}.

Inductive exn : Type :=
  | HTTPException (status_code : Z) (detail : string)
  | RelayError (f : relay_fault)
  | ValueError (msg : string)
  | OtherException (cls msg : string)   (* any other subclass of Exception *)
  | BaseOnly (cls : string).            (* KeyboardInterrupt, SystemExit: not an Exception *)

(** [isinstance(e, Exception)], the test of an [except Exception] clause. *)
Definition is_Exception (e : exn) : bool :=
  match e with
  | BaseOnly _ => false
  | _ => true
  end.

Definition Z_to_string (z : Z) : string :=
  match z with
  | Z0 => "0"
  | Zpos p => pretty.pretty (Npos p)
  | Zneg p => "-" +:+ pretty.pretty (Npos p)
  end.

(** [str(e)], which only the log lines use.  Starlette's
    [HTTPException.__str__] gives ["{status_code}: {detail}"]. *)
Definition str_exn (e : exn) : string :=
  match e with
  | HTTPException sc d => Z_to_string sc +:+ ": " +:+ d
  | RelayError f => fault_str f
  | ValueError m => m
  | OtherException _ m => m
  | BaseOnly _ => EmptyString
  end.

(** ** Data model *)

(** [class ConsultationRequest(BaseModel)], after validation. *)
Record ConsultationRequest : Type := mk_request {
  name : string;
  email : string;
  company : option string;
  message : string
}.

(** The dictionary [EMAIL_CONFIG]. *)
Record EmailConfig : Type := mk_config {
  smtp_server : string;
  smtp_port : Z;
  sender_email : string;
  sender_password : string;
  receiver_email : string
}.

(** [x or d] on an [Optional[str]]: [None] and the empty string are falsy. *)
Definition py_or (x : option string) (d : string) : string :=
  match x with
  | None => d
  | Some EmptyString => d
  | Some s => s
  end.

(** A naive [datetime]. *)
Record datetime : Type := mk_datetime {
  year : Z; month : Z; day : Z;
  hour : Z; minute : Z; second : Z; microsecond : Z
}.

(** The [MIMEText] parts and the [MIMEMultipart] container.  A payload
    is a string of bytes, as every string here. *)
Record MIMEText : Type := mk_part {
  part_subtype : string;
  part_payload : string
}.

Record MIMEMultipart : Type := mk_message {
  msg_subtype : string;
  msg_headers : list (string * string);
  msg_parts : list MIMEText
}.

Definition new_MIMEMultipart (subtype : string) : MIMEMultipart :=
  {| msg_subtype := subtype; msg_headers := []; msg_parts := [] |}.

(** [msg[k] = v] appends a header. *)
Definition set_header (k v : string) (m : MIMEMultipart) : MIMEMultipart :=
  {| msg_subtype := msg_subtype m;
     msg_headers := msg_headers m ++ [(k, v)];
     msg_parts := msg_parts m |}.

(** [msg.attach(part)]. *)
Definition attach (p : MIMEText) (m : MIMEMultipart) : MIMEMultipart :=
  {| msg_subtype := msg_subtype m;
     msg_headers := msg_headers m;
     msg_parts := msg_parts m ++ [p] |}.

(** [msg[k]]: the first header of that name. *)
Fixpoint get_header_in (k : string) (hs : list (string * string)) : option string :=
  match hs with
  | [] => None
  | (k', v) :: hs' => if String.eqb k k' then Some v else get_header_in k hs'
  end.

Definition get_header (k : string) (m : MIMEMultipart) : option string :=
  get_header_in k (msg_headers m).

(** Values of the JSON bodies. *)
#[warnings="-register-all"]
Inductive pyval : Type :=
  | VNone
  | VBool (b : bool)
  | VInt (z : Z)
  | VStr (s : string)
  | VList (l : list pyval)
  | VDict (d : list (string * pyval)).

Definition dict : Type := list (string * pyval).

Fixpoint dict_get (k : string) (d : dict) : option pyval :=
  match d with
  | [] => None
  | (k', v) :: d' => if String.eqb k k' then Some v else dict_get k d'
  end.

(** ** The world *)

(** One call into [smtplib]. *)
Inductive smtp_op : Type :=
  | SMTP_connect (host : string) (port : Z)
  | SMTP_starttls
  | SMTP_login (user password : string)
  | SMTP_send_message (msg : MIMEMultipart)
  | SMTP_quit.

(** The transcript records every call with what the relay answered, and
    the local close of the socket. *)
Inductive smtp_event : Type :=
  | Called (op : smtp_op) (answer : option relay_fault)
  | Closed.

(** The relay is an untrusted collaborator: given everything that
    happened so far it lets the next call through ([None]) or fails it. *)
Definition Relay : Type := list smtp_event -> smtp_op -> option relay_fault.

Inductive log_level : Type := INFO | ERROR.

Record World : Type := mk_world {
  relay : Relay;
  transcript : list smtp_event;
  log : list (log_level * string);
  clock : nat -> datetime;     (* the successive readings of the system clock *)
  ticks : nat                  (* how many readings were taken *)
}.

(** ** Computations *)

Inductive outcome (A : Type) : Type :=
  | Normal (a : A)
  | Raised (e : exn).
Arguments Normal {A} a.
Arguments Raised {A} e.

Definition M (A : Type) : Type := World -> outcome A * World.

Definition ret {A} (a : A) : M A := fun w => (Normal a, w).

Definition raise {A} (e : exn) : M A := fun w => (Raised e, w).

Definition bind {A B} (m : M A) (k : A -> M B) : M B := fun w =>
  match m w with
  | (Normal a, w') => k a w'
  | (Raised e, w') => (Raised e, w')
  end.

Notation "'let*' x ':=' m 'in' k" := (bind m (fun x => k))
  (at level 10, x name, m at level 100, k at level 200).

(** [try: body  except Exception as e: handler e]. *)
Definition try_except {A} (body : M A) (handler : exn -> M A) : M A := fun w =>
  match body w with
  | (Normal a, w') => (Normal a, w')
  | (Raised e, w') => if is_Exception e then handler e w' else (Raised e, w')
  end.

(** [try: body  finally: cleanup], for a cleanup that cannot raise. *)
Definition try_finally {A} (body : M A) (cleanup : World -> World) : M A := fun w =>
  match body w with
  | (r, w') => (r, cleanup w')
  end.

(** *** Primitive effects *)

Definition add_event (ev : smtp_event) (w : World) : World :=
  {| relay := relay w; transcript := transcript w ++ [ev];
     log := log w; clock := clock w; ticks := ticks w |}.

Definition add_log (lvl : log_level) (line : string) (w : World) : World :=
  {| relay := relay w; transcript := transcript w;
     log := log w ++ [(lvl, line)]; clock := clock w; ticks := ticks w |}.

Definition tick (w : World) : World :=
  {| relay := relay w; transcript := transcript w;
     log := log w; clock := clock w; ticks := S (ticks w) |}.

Definition logger_info (line : string) : M unit := fun w =>
  (Normal tt, add_log INFO line w).

Definition logger_error (line : string) : M unit := fun w =>
  (Normal tt, add_log ERROR line w).

(** [datetime.now()]: the next reading of the clock. *)
Definition datetime_now : M datetime := fun w =>
  (Normal (clock w (ticks w)), tick w).

(** A call into the relay: the answer is the relay's, and it is recorded. *)
Definition relay_call (op : smtp_op) : M unit := fun w =>
  match relay w (transcript w) op with
  | None => (Normal tt, add_event (Called op None) w)
  | Some f => (Raised (RelayError f), add_event (Called op (Some f)) w)
  end.

(** ** [smtplib.SMTP] as a context manager *)

(** [SMTP.__exit__]: QUIT, where a server that already hung up is not an
    error, and the socket is closed whatever happened. *)
Definition SMTP_exit : M unit :=
  try_finally
    (fun w =>
       match relay_call SMTP_quit w with
       | (Raised (RelayError f), w') =>
           match fault_class f with
           | SMTPServerDisconnected => (Normal tt, w')
           | _ => (Raised (RelayError f), w')
           end
       | r => r
       end)
    (add_event Closed).

(** [with smtplib.SMTP(host, port) as server: body].  The constructor
    connects; when that fails the exception leaves the [with] statement
    before a session exists, and nothing is left to close.  After the
    body, [__exit__] runs; it returns [None], so an exception of the body
    goes on, unless [__exit__] raises one itself. *)
Definition with_SMTP {A} (host : string) (port : Z) (body : M A) : M A :=
  let* _ := relay_call (SMTP_connect host port) in
  fun w =>
    match body w with
    | (r, w1) =>
        match SMTP_exit w1 with
        | (Normal _, w2) => (r, w2)
        | (Raised e, w2) => (Raised e, w2)
        end
    end.

(** ** Dates *)

Definition digit_char (d : Z) : ascii := ascii_of_N (48 + Z.to_N d).

(** The [w] low decimal digits of [n] in front of [acc]: what ["%0wd"]
    prints for [0 <= n < 10 ^ w], the range of every [datetime] field. *)
Fixpoint zero_pad_acc (w : nat) (n : Z) (acc : string) : string :=
  match w with
  | O => acc
  | S w' => zero_pad_acc w' (n / 10) (String (digit_char (n mod 10)) acc)
  end.

Definition zero_pad (w : nat) (n : Z) : string := zero_pad_acc w n EmptyString.

(** [d.strftime('%Y-%m-%d %H:%M:%S')], for a year of four digits. *)
Definition strftime (d : datetime) : string :=
  zero_pad 4 (year d) +:+ "-" +:+ zero_pad 2 (month d) +:+ "-" +:+ zero_pad 2 (day d)
  +:+ " " +:+ zero_pad 2 (hour d) +:+ ":" +:+ zero_pad 2 (minute d)
  +:+ ":" +:+ zero_pad 2 (second d).

(** [d.isoformat()] of a naive [datetime]: the fraction is printed only
    when the microseconds are not zero. *)
Definition isoformat (d : datetime) : string :=
  zero_pad 4 (year d) +:+ "-" +:+ zero_pad 2 (month d) +:+ "-" +:+ zero_pad 2 (day d)
  +:+ "T" +:+ zero_pad 2 (hour d) +:+ ":" +:+ zero_pad 2 (minute d)
  +:+ ":" +:+ zero_pad 2 (second d)
  +:+ (if microsecond d =? 0 then EmptyString else "." +:+ zero_pad 6 (microsecond d)).

Definition is_leap (y : Z) : bool :=
  (y mod 4 =? 0) && (negb (y mod 100 =? 0) || (y mod 400 =? 0)).

Definition days_in_month (y m : Z) : Z :=
  if m =? 2 then (if is_leap y then 29 else 28)
  else if (m =? 4) || (m =? 6) || (m =? 9) || (m =? 11) then 30
  else 31.

(** The ranges that the [datetime] constructor enforces. *)
Definition valid_datetime (d : datetime) : bool :=
  (1 <=? year d) && (year d <=? 9999)
  && (1 <=? month d) && (month d <=? 12)
  && (1 <=? day d) && (day d <=? days_in_month (year d) (month d))
  && (0 <=? hour d) && (hour d <=? 23)
  && (0 <=? minute d) && (minute d <=? 59)
  && (0 <=? second d) && (second d <=? 59)
  && (0 <=? microsecond d) && (microsecond d <=? 999999).

(** The value of a decimal digit. *)
Definition digit_val (c : ascii) : option Z :=
  let n := N_of_ascii c in
  if ((48 <=? n) && (n <=? 57))%N then Some (Z.of_N n - 48) else None.

(** ** The e-mail bodies *)

(** The three f-strings, line by line as in the source (the leading
    spaces are the indentation of the source, and some lines hold nothing
    else). *)

Definition notification_text (c : ConsultationRequest) (received_at : string) : string :=
  lines [
    EmptyString;
    "        New Consultation Request";
    "        ";
    "        Name: " +:+ name c;
    "        Email: " +:+ email c;
    "        Company: " +:+ py_or (company c) "Not provided";
    "        ";
    "        Message:";
    "        " +:+ message c;
    "        ";
    "        Received at: " +:+ received_at;
    "        "
  ].

Definition notification_html (c : ConsultationRequest) (received_at : string) : string :=
  lines [
    EmptyString;
    "        <html>";
    "          <body style=" +:+ dq +:+ "font-family: Arial, sans-serif; line-height: 1.6; color: #333;" +:+ dq +:+ ">";
    "            <div style=" +:+ dq +:+ "max-width: 600px; margin: 0 auto; padding: 20px;" +:+ dq +:+ ">";
    "              <h2 style=" +:+ dq +:+ "color: #667eea; border-bottom: 2px solid #667eea; padding-bottom: 10px;" +:+ dq +:+ ">";
    "                New Consultation Request";
    "              </h2>";
    "              ";
    "              <div style=" +:+ dq +:+ "background-color: #f8f9fa; padding: 20px; border-radius: 8px; margin: 20px 0;" +:+ dq +:+ ">";
    "                <p><strong>Name:</strong> " +:+ name c +:+ "</p>";
    "                <p><strong>Email:</strong> <a href=" +:+ dq +:+ "mailto:" +:+ email c +:+ dq +:+ ">" +:+ email c +:+ "</a></p>";
    "                <p><strong>Company:</strong> " +:+ py_or (company c) "Not provided" +:+ "</p>";
    "              </div>";
    "              ";
    "              <div style=" +:+ dq +:+ "background-color: #ffffff; padding: 20px; border: 1px solid #e9ecef; border-radius: 8px;" +:+ dq +:+ ">";
    "                <h3 style=" +:+ dq +:+ "color: #495057; margin-top: 0;" +:+ dq +:+ ">Message:</h3>";
    "                <p style=" +:+ dq +:+ "white-space: pre-wrap;" +:+ dq +:+ ">" +:+ message c +:+ "</p>";
    "              </div>";
    "              ";
    "              <div style=" +:+ dq +:+ "margin-top: 20px; padding-top: 20px; border-top: 1px solid #e9ecef; color: #6c757d; font-size: 14px;" +:+ dq +:+ ">";
    "                <p>Received at: " +:+ received_at +:+ "</p>";
    "              </div>";
    "            </div>";
    "          </body>";
    "        </html>";
    "        "
  ].

Definition confirmation_html (c : ConsultationRequest) : string :=
  lines [
    EmptyString;
    "        <html>";
    "          <body style=" +:+ dq +:+ "font-family: Arial, sans-serif; line-height: 1.6; color: #333;" +:+ dq +:+ ">";
    "            <div style=" +:+ dq +:+ "max-width: 600px; margin: 0 auto; padding: 20px;" +:+ dq +:+ ">";
    "              <div style=" +:+ dq +:+ "text-align: center; margin-bottom: 30px;" +:+ dq +:+ ">";
    "                <h1 style=" +:+ dq +:+ "color: #667eea; margin: 0;" +:+ dq +:+ ">Neural<span style=" +:+ dq +:+ "color: #764ba2;" +:+ dq +:+ ">Forge</span></h1>";
    "                <p style=" +:+ dq +:+ "color: #6c757d; margin-top: 5px;" +:+ dq +:+ ">Intelligence at Scale</p>";
    "              </div>";
    "              ";
    "              <h2 style=" +:+ dq +:+ "color: #495057;" +:+ dq +:+ ">Thank you for reaching out, " +:+ name c +:+ "!</h2>";
    "              ";
    "              <p>We've received your consultation request and appreciate your interest in NeuralForge AI solutions.</p>";
    "              ";
    "              <div style=" +:+ dq +:+ "background-color: #f8f9fa; padding: 20px; border-radius: 8px; margin: 20px 0;" +:+ dq +:+ ">";
    "                <h3 style=" +:+ dq +:+ "color: #667eea; margin-top: 0;" +:+ dq +:+ ">What happens next?</h3>";
    "                <ul style=" +:+ dq +:+ "color: #495057;" +:+ dq +:+ ">";
    "                  <li>Our team will review your request within 24 hours</li>";
    "                  <li>A specialist will reach out to schedule a consultation</li>";
    "                  <li>We'll prepare a customized AI solution proposal for your needs</li>";
    "                </ul>";
    "              </div>";
    "              ";
    "              <p>In the meantime, feel free to explore our website for more information about our AI and data science services.</p>";
    "              ";
    "              <div style=" +:+ dq +:+ "margin-top: 40px; padding-top: 20px; border-top: 1px solid #e9ecef; text-align: center; color: #6c757d; font-size: 14px;" +:+ dq +:+ ">";
    "                <p>" +:+ copyright_sign +:+ " 2024 NeuralForge AI. All rights reserved.</p>";
    "                <p>This is an automated response. Please do not reply to this email.</p>";
    "              </div>";
    "            </div>";
    "          </body>";
    "        </html>";
    "        "
  ].

(** The message that [send_email_notification] hands to the relay, as a
    function of the request; [t1] and [t2] are the two readings of the
    clock, of the text and of the HTML body. *)
Definition notification_message (cfg : EmailConfig) (c : ConsultationRequest)
    (t1 t2 : datetime) : MIMEMultipart :=
  let msg := new_MIMEMultipart "alternative" in
  let msg := set_header "Subject" ("New Consultation Request from " +:+ name c) msg in
  let msg := set_header "From" (sender_email cfg) msg in
  let msg := set_header "To" (receiver_email cfg) msg in
  let text := notification_text c (strftime t1) in
  let html := notification_html c (strftime t2) in
  let part1 := mk_part "plain" text in
  let part2 := mk_part "html" html in
  let msg := attach part1 msg in
  let msg := attach part2 msg in
  msg.

(** The message that [send_confirmation_email] hands to the relay. *)
Definition confirmation_message (cfg : EmailConfig) (c : ConsultationRequest)
    : MIMEMultipart :=
  let msg := new_MIMEMultipart "alternative" in
  let msg := set_header "Subject" "Thank you for your consultation request - NeuralForge AI" msg in
  let msg := set_header "From" (sender_email cfg) msg in
  let msg := set_header "To" (email c) msg in
  let html := confirmation_html c in
  let part := mk_part "html" html in
  let msg := attach part msg in
  msg.

(** The body of both [with smtplib.SMTP(...)] blocks. *)
Definition smtp_session (cfg : EmailConfig) (msg : MIMEMultipart) : M unit :=
  with_SMTP (smtp_server cfg) (smtp_port cfg)
    (let* _ := relay_call SMTP_starttls in
     let* _ := relay_call (SMTP_login (sender_email cfg) (sender_password cfg)) in
     relay_call (SMTP_send_message msg)).

(** ** The two helpers *)

Definition send_email_notification (cfg : EmailConfig) (consultation : ConsultationRequest)
    : M bool :=
  try_except
    (let msg := new_MIMEMultipart "alternative" in
     let msg := set_header "Subject"
                  ("New Consultation Request from " +:+ name consultation) msg in
     let msg := set_header "From" (sender_email cfg) msg in
     let msg := set_header "To" (receiver_email cfg) msg in
     let* t1 := datetime_now in
     let text := notification_text consultation (strftime t1) in
     let* t2 := datetime_now in
     let html := notification_html consultation (strftime t2) in
     let part1 := mk_part "plain" text in
     let part2 := mk_part "html" html in
     let msg := attach part1 msg in
     let msg := attach part2 msg in
     let* _ := smtp_session cfg msg in
     let* _ := logger_info ("Email notification sent successfully for "
                            +:+ email consultation) in
     ret true)
    (fun e =>
       let* _ := logger_error ("Failed to send email notification: " +:+ str_exn e) in
       ret false).

Definition send_confirmation_email (cfg : EmailConfig) (consultation : ConsultationRequest)
    : M bool :=
  try_except
    (let msg := new_MIMEMultipart "alternative" in
     let msg := set_header "Subject"
                  "Thank you for your consultation request - NeuralForge AI" msg in
     let msg := set_header "From" (sender_email cfg) msg in
     let msg := set_header "To" (email consultation) msg in
     let html := confirmation_html consultation in
     let part := mk_part "html" html in
     let msg := attach part msg in
     let* _ := smtp_session cfg msg in
     let* _ := logger_info ("Confirmation email sent to " +:+ email consultation) in
     ret true)
    (fun e =>
       let* _ := logger_error ("Failed to send confirmation email: " +:+ str_exn e) in
       ret false).

(** ** The endpoints *)

(** [GET /]. *)
Definition root : M dict :=
  ret [("message", VStr "NeuralForge API is running");
       ("version", VStr "1.0.0");
       ("endpoints", VDict [("consultation", VStr "/api/consultation");
                            ("health", VStr "/health")])].

(** [GET /health]. *)
Definition health_check : M dict :=
  let* now := datetime_now in
  ret [("status", VStr "healthy"); ("timestamp", VStr (isoformat now))].

Definition both_failed_detail : string :=
  "Failed to process consultation request. Please try again later.".

Definition generic_detail : string :=
  "An error occurred while processing your request. Please try again.".

(** The [try] block of [submit_consultation], over the two helpers that
    the module-level names are bound to when the handler runs. *)
Definition submit_consultation_try
    (notify confirm : ConsultationRequest -> M bool)
    (consultation : ConsultationRequest) : M dict :=
  let* _ := logger_info ("Received consultation request from "
                         +:+ email consultation) in
  let* notification_sent := notify consultation in
  let* confirmation_sent := confirm consultation in
  let* _ := (if negb notification_sent && negb confirmation_sent
             then raise (HTTPException 500 both_failed_detail)
             else ret tt) in
  let* now := datetime_now in
  ret [("success", VBool true);
       ("message", VStr "Your consultation request has been received. We'll be in touch soon!");
       ("timestamp", VStr (isoformat now))].

(** Its [except Exception as e] block. *)
Definition submit_consultation_except (e : exn) : M dict :=
  let* _ := logger_error ("Error processing consultation request: " +:+ str_exn e) in
  raise (HTTPException 500 generic_detail).

Definition submit_consultation_with
    (notify confirm : ConsultationRequest -> M bool)
    (consultation : ConsultationRequest) : M dict :=
  try_except (submit_consultation_try notify confirm consultation)
             submit_consultation_except.

(** [POST /api/consultation], the handler. *)
Definition submit_consultation (cfg : EmailConfig) : ConsultationRequest -> M dict :=
  submit_consultation_with (send_email_notification cfg) (send_confirmation_email cfg).

(** *** What FastAPI does around the handler *)

Inductive http_response : Type :=
  | Response200 (body : dict)
  | ResponseError (status_code : Z) (detail : string)  (* body: the detail *)
  | Response422                    (* the body lists the fields that failed *)
  | ResponseUnhandled.             (* the server's own 500 *)

(** A returned dictionary is the JSON body of a 200; an [HTTPException]
    becomes a response with its status code and detail. *)
Definition respond (r : outcome dict) : http_response :=
  match r with
  | Normal d => Response200 d
  | Raised (HTTPException sc d) => ResponseError sc d
  | Raised _ => ResponseUnhandled
  end.

Section Validation.

(** The validators of pydantic, which are not part of this repository:
    [str_validate] for a [str] field, and [EmailStr_validate], which
    returns the normalised address of a syntactically valid one. *)
Variable str_validate : pyval -> option string.
Variable EmailStr_validate : pyval -> option string.

(** The model [ConsultationRequest] applied to a parsed JSON body:
    [name], [email] and [message] are required, [company] defaults to
    [None]. *)
Definition validate_ConsultationRequest (body : pyval) : option ConsultationRequest :=
  match body with
  | VDict d =>
      n ← dict_get "name" d ≫= str_validate;
      e ← dict_get "email" d ≫= EmailStr_validate;
      co ← match dict_get "company" d with
            | None | Some VNone => Some None
            | Some v => Some <$> str_validate v
            end;
      m ← dict_get "message" d ≫= str_validate;
      Some (mk_request n e co m)
  | _ => None
  end.

(** [POST /api/consultation] as the caller sees it: the body is
    validated against the parameter's type first, and the handler is
    called only with a valid request. *)
Definition post_api_consultation (cfg : EmailConfig) (body : pyval)
    : World -> http_response * World := fun w =>
  match validate_ConsultationRequest body with
  | None => (Response422, w)
  | Some consultation =>
      match submit_consultation cfg consultation w with
      | (r, w') => (respond r, w')
      end
  end.

End Validation.

(** [GET /health] as the caller sees it. *)
Definition get_health : World -> http_response * World := fun w =>
  match health_check w with
  | (r, w') => (respond r, w')
  end.

(** ** Configuration *)

(** [os.getenv(key, default)]. *)
Definition getenv (environ : gmap string string) (key default : string) : string :=
  match environ !! key with
  | Some v => v
  | None => default
  end.

(** [int(s)] on a string: surrounding white space, an optional sign, and
    decimal digits that single underscores may separate. *)
Fixpoint int_digits (s : string) (acc : Z) (after_digit : bool) : option Z :=
  match s with
  | EmptyString => if after_digit then Some acc else None
  | String c s' =>
      if Ascii.eqb c "_" then
        (if after_digit then int_digits s' acc false else None)
      else
        match digit_val c with
        | Some v => int_digits s' (10 * acc + v) true
        | None => None
        end
  end.

Fixpoint lstrip (s : string) : string :=
  match s with
  | String c s' => if Ascii.is_space c then lstrip s' else s
  | EmptyString => s
  end.

Definition strip (s : string) : string :=
  String.rev (lstrip (String.rev (lstrip s))).

Definition py_int (s : string) : outcome Z :=
  let bad := Raised (ValueError ("invalid literal for int() with base 10: '" +:+ s +:+ "'")) in
  let of_digits (neg : bool) (t : string) :=
    match int_digits t 0 false with
    | Some z => Normal (if neg then - z else z)
    | None => bad
    end in
  match strip s with
  | String "-" t => of_digits true t
  | String "+" t => of_digits false t
  | t => of_digits false t
  end.

(** The module-level [EMAIL_CONFIG = {...}], evaluated once at import.  A
    port that is not an integer makes the import fail. *)
Definition EMAIL_CONFIG (environ : gmap string string) : outcome EmailConfig :=
  match py_int (getenv environ "SMTP_PORT" "587") with
  | Raised e => Raised e
  | Normal port =>
      Normal {| smtp_server := getenv environ "SMTP_SERVER" "smtp.gmail.com";
                smtp_port := port;
                sender_email := getenv environ "SENDER_EMAIL" "your-email@gmail.com";
                sender_password := getenv environ "SENDER_PASSWORD" "your-app-password";
                receiver_email := getenv environ "RECEIVER_EMAIL" "hello@neuralforge.ai" |}
  end.

(** * What the properties are stated with *)

(** ** Worlds, cycles and responses *)

(** [w'] is [w] after the SMTP events [s], the log lines [l] and [n]
    readings of the clock; the relay and the clock themselves are the
    same. *)
Definition extends (w w' : World) (s : list smtp_event)
    (l : list (log_level * string)) (n : nat) : Prop :=
  relay w' = relay w /\ clock w' = clock w /\
  transcript w' = transcript w ++ s /\
  log w' = log w ++ l /\
  ticks w' = (ticks w + n)%nat.

(** The calls between connect and quit: STARTTLS, login and the message,
    up to the first one that the relay fails.  The flag tells whether the
    message went through. *)
Inductive smtp_steps (cfg : EmailConfig) (msg : MIMEMultipart)
    : list smtp_event -> bool -> Prop :=
  | steps_starttls_failed f :
      smtp_steps cfg msg [Called SMTP_starttls (Some f)] false
  | steps_login_failed f :
      smtp_steps cfg msg
        [Called SMTP_starttls None;
         Called (SMTP_login (sender_email cfg) (sender_password cfg)) (Some f)] false
  | steps_send_failed f :
      smtp_steps cfg msg
        [Called SMTP_starttls None;
         Called (SMTP_login (sender_email cfg) (sender_password cfg)) None;
         Called (SMTP_send_message msg) (Some f)] false
  | steps_sent :
      smtp_steps cfg msg
        [Called SMTP_starttls None;
         Called (SMTP_login (sender_email cfg) (sender_password cfg)) None;
         Called (SMTP_send_message msg) None] true.

(** QUIT went well, or the server had hung up already. *)
Definition quit_clean (q : option relay_fault) : bool :=
  match q with
  | None => true
  | Some f =>
      match fault_class f with
      | SMTPServerDisconnected => true
      | _ => false
      end
  end.

(** One cycle for one message: a connect to the configured relay that
    fails, or a connect, the steps, QUIT and the close of the socket.  The
    flag tells whether the whole cycle went without an error. *)
Inductive smtp_cycle (cfg : EmailConfig) (msg : MIMEMultipart)
    : list smtp_event -> bool -> Prop :=
  | cycle_connect_failed f :
      smtp_cycle cfg msg
        [Called (SMTP_connect (smtp_server cfg) (smtp_port cfg)) (Some f)] false
  | cycle_closed steps sent q :
      smtp_steps cfg msg steps sent ->
      smtp_cycle cfg msg
        (Called (SMTP_connect (smtp_server cfg) (smtp_port cfg)) None
           :: steps ++ [Called SMTP_quit q; Closed])
        (sent && quit_clean q).

(** No connection is reused: scanning a transcript with the number of
    messages handed over on the open connection ([None] when there is
    none), a connect needs no open connection, every other call needs one,
    a message needs one that carried none yet, and in the end every
    connection is closed. *)
Fixpoint separate_cycles_from (open : option nat) (s : list smtp_event) : bool :=
  match s with
  | [] =>
      match open with
      | None => true
      | Some _ => false
      end
  | Called (SMTP_connect _ _) a :: s' =>
      match open, a with
      | None, None => separate_cycles_from (Some O) s'
      | None, Some _ => separate_cycles_from None s'
      | Some _, _ => false
      end
  | Called (SMTP_send_message _) _ :: s' =>
      match open with
      | Some O => separate_cycles_from (Some 1%nat) s'
      | _ => false
      end
  | Called _ _ :: s' =>
      match open with
      | Some _ => separate_cycles_from open s'
      | None => false
      end
  | Closed :: s' =>
      match open with
      | Some _ => separate_cycles_from None s'
      | None => false
      end
  end.

Definition separate_cycles (s : list smtp_event) : bool :=
  separate_cycles_from None s.

(** A session returns when the cycle went without an error, and raises
    an error of the relay otherwise. *)
Definition session_outcome (ok : bool) (r : outcome unit) : Prop :=
  if ok then r = Normal tt else exists f, r = Raised (RelayError f).

(** The first log line of the handler. *)
Definition received_line (c : ConsultationRequest) : string :=
  "Received consultation request from " +:+ email c.

(** The dictionary that the handler returns. *)
Definition success_body (now : datetime) : dict :=
  [("success", VBool true);
   ("message", VStr "Your consultation request has been received. We'll be in touch soon!");
   ("timestamp", VStr (isoformat now))].

(** A 200 whose body says [success: true]. *)
Definition is_success (r : http_response) : bool :=
  match r with
  | Response200 d =>
      match dict_get "success" d with
      | Some (VBool true) => true
      | _ => false
      end
  | _ => false
  end.

(** The response of an [HTTPException] with status 500. *)
Definition is_error_500 (r : http_response) : bool :=
  match r with
  | ResponseError 500 _ => true
  | _ => false
  end.

(** The [email] field of a body does not validate: it is missing, or the
    validator refuses its value (or the body is no JSON object). *)
Definition email_field_invalid (EmailStr_validate : pyval -> option string)
    (body : pyval) : Prop :=
  match body with
  | VDict d =>
      match dict_get "email" d with
      | Some v => EmailStr_validate v = None
      | None => True
      end
  | _ => True
  end.

(** [s in t]. *)
Definition is_substring (s t : string) : Prop :=
  exists pre post, t = pre +:+ s +:+ post.

(** The variables that [EMAIL_CONFIG] reads. *)
Definition config_variables : list string :=
  ["SMTP_SERVER"; "SMTP_PORT"; "SENDER_EMAIL"; "SENDER_PASSWORD"; "RECEIVER_EMAIL"].

(** ** Reading an ISO-8601 timestamp back *)

(** The extended format of ISO 8601 for a local date and time, which the
    timestamps are measured against. *)

(** Exactly [w] decimal digits. *)
Fixpoint take_number (w : nat) (acc : Z) (s : string) : option (Z * string) :=
  match w with
  | O => Some (acc, s)
  | S w' =>
      match s with
      | String c s' =>
          match digit_val c with
          | Some v => take_number w' (10 * acc + v) s'
          | None => None
          end
      | EmptyString => None
      end
  end.

Definition expect (c : ascii) (s : string) : option string :=
  match s with
  | String c' s' => if Ascii.eqb c c' then Some s' else None
  | EmptyString => None
  end.

(** [YYYY-MM-DDTHH:MM:SS] with an optional [.ffffff], the fields in range
    and nothing after them. *)
Definition parse_iso8601 (s : string) : option datetime :=
  '(y, s) ← take_number 4 0 s; s ← expect "-" s;
  '(mo, s) ← take_number 2 0 s; s ← expect "-" s;
  '(d, s) ← take_number 2 0 s; s ← expect "T" s;
  '(h, s) ← take_number 2 0 s; s ← expect ":" s;
  '(mi, s) ← take_number 2 0 s; s ← expect ":" s;
  '(se, s) ← take_number 2 0 s;
  '(us, s) ← match s with
             | EmptyString => Some (0, s)
             | _ => s ← expect "." s; take_number 6 0 s
             end;
  match s with
  | EmptyString =>
      let r := mk_datetime y mo d h mi se us in
      if valid_datetime r then Some r else None
  | _ => None
  end.

(** ** Sample data *)

Definition sample_cfg : EmailConfig :=
  mk_config "smtp.example.org" 587 "bot@example.org" "app-password"
    "hello@neuralforge.ai".

Definition sample_request : ConsultationRequest :=
  mk_request "Ann" "ann@example.org" None "Hello".

Definition acme_request : ConsultationRequest :=
  mk_request "Bob" "bob@acme.example" (Some "Acme") "Hi".

Definition sample_now : datetime := mk_datetime 2024 2 29 7 8 9 1500.

(** A relay that takes everything, one that refuses every connection, and
    one that refuses the first connection only. *)
Definition relay_up : Relay := fun _ _ => None.

Definition relay_down : Relay := fun _ _ =>
  Some (mk_fault OSError "[Errno 111] Connection refused").

Definition relay_first_down : Relay := fun history _ =>
  match history with
  | [] => Some (mk_fault OSError "[Errno 111] Connection refused")
  | _ => None
  end.

Definition world_of (r : Relay) : World :=
  {| relay := r; transcript := []; log := [];
     clock := fun _ => sample_now; ticks := 0 |}.

Definition world_up : World := world_of relay_up.
Definition world_down : World := world_of relay_down.
Definition world_first_down : World := world_of relay_first_down.

(** Stand-ins for pydantic's validators: a string is a [str], and an
    address is a string with an [@]. *)
Definition sample_str_validate (v : pyval) : option string :=
  match v with
  | VStr s => Some s
  | _ => None
  end.

Fixpoint has_at (s : string) : bool :=
  match s with
  | EmptyString => false
  | String c s' => Ascii.eqb c "@" || has_at s'
  end.

Definition sample_EmailStr_validate (v : pyval) : option string :=
  match v with
  | VStr s => if has_at s then Some s else None
  | _ => None
  end.

Definition bad_email_body : pyval :=
  VDict [("name", VStr "Ann"); ("email", VStr "not-an-address");
         ("message", VStr "Hello")].

Definition good_body : pyval :=
  VDict [("name", VStr "Ann"); ("email", VStr "ann@example.org");
         ("message", VStr "Hello")].

(** A helper that lets an exception escape. *)
Definition broken_helper (c : ConsultationRequest) : M bool :=
  raise (OtherException "RuntimeError" "boom").

(** The transcript of a cycle in which every call goes through. *)
Definition full_cycle (cfg : EmailConfig) (msg : MIMEMultipart) : list smtp_event :=
  [Called (SMTP_connect (smtp_server cfg) (smtp_port cfg)) None;
   Called SMTP_starttls None;
   Called (SMTP_login (sender_email cfg) (sender_password cfg)) None;
   Called (SMTP_send_message msg) None;
   Called SMTP_quit None;
   Closed].

(** ** What a run adds to the transcript *)

(** The SMTP events of [w'] that [w] did not have yet. *)
Definition new_events (w w' : World) : list smtp_event :=
  drop (length (transcript w)) (transcript w').

(** A cycle in which connect, STARTTLS, login and the message went
    through, with the answer [q] to QUIT. *)
Definition cycle_with_quit (cfg : EmailConfig) (msg : MIMEMultipart)
    (q : option relay_fault) : list smtp_event :=
  [Called (SMTP_connect (smtp_server cfg) (smtp_port cfg)) None;
   Called SMTP_starttls None;
   Called (SMTP_login (sender_email cfg) (sender_password cfg)) None;
   Called (SMTP_send_message msg) None;
   Called SMTP_quit q;
   Closed].

(** Credentials go over TLS only: a login comes directly after a STARTTLS
    that the relay accepted, and a message directly after a login that it
    accepted.  [prev] is the event before [s]. *)
Fixpoint credentials_after_tls_from (prev : option smtp_event)
    (s : list smtp_event) : bool :=
  match s with
  | [] => true
  | ev :: s' =>
      match ev with
      | Called (SMTP_login _ _) _ =>
          match prev with
          | Some (Called SMTP_starttls None) => true
          | _ => false
          end
      | Called (SMTP_send_message _) _ =>
          match prev with
          | Some (Called (SMTP_login _ _) None) => true
          | _ => false
          end
      | _ => true
      end
      && credentials_after_tls_from (Some ev) s'
  end.

Definition credentials_after_tls (s : list smtp_event) : bool :=
  credentials_after_tls_from None s.

(** The event talks to the configured relay, as the configured sender. *)
Definition uses_config (cfg : EmailConfig) (ev : smtp_event) : bool :=
  match ev with
  | Called (SMTP_connect host port) _ =>
      String.eqb host (smtp_server cfg) && (port =? smtp_port cfg)
  | Called (SMTP_login user password) _ =>
      String.eqb user (sender_email cfg) && String.eqb password (sender_password cfg)
  | Called (SMTP_send_message msg) _ =>
      match get_header "From" msg with
      | Some from => String.eqb from (sender_email cfg)
      | None => false
      end
  | _ => true
  end.


Definition is_message (ev : smtp_event) : bool :=
  match ev with
  | Called (SMTP_send_message _) _ => true
  | _ => false
  end.

(** The log line of a helper after the cycle [s]: its success line, or
    its failure line with the text of an error that the relay gave in
    [s]. *)
Definition helper_line (ok_text fail_text : string) (c : ConsultationRequest)
    (s : list smtp_event) (ok : bool) (line : log_level * string) : Prop :=
  if ok then line = (INFO, ok_text +:+ email c)
  else exists op f,
         In (Called op (Some f)) s /\ line = (ERROR, fail_text +:+ fault_str f).

(** The last log line of a handler whose two helpers failed. *)
Definition both_failed_line : log_level * string :=
  (ERROR, "Error processing consultation request: 500: " +:+ both_failed_detail).

(** A relay that takes every call but QUIT, which it fails with [f]. *)
Definition relay_quit_fails (f : relay_fault) : Relay := fun _ op =>
  match op with
  | SMTP_quit => Some f
  | _ => None
  end.

(** A request with an empty company, a body without a message, and a
    relay that answers QUIT with an error of its own. *)
Definition empty_company_request : ConsultationRequest :=
  mk_request "Eve" "eve@example.org" (Some EmptyString) "Hello".

Definition no_message_body : pyval :=
  VDict [("name", VStr "Ann"); ("email", VStr "ann@example.org")].

Definition quit_refused : relay_fault :=
  mk_fault SMTPResponseException "(421, b'Service not available')".

(** * Properties *)

(** ** What a computation leaves of the world *)

Lemma extends_refl w : extends w w [] [] 0.
Proof.
  unfold extends. rewrite !app_nil_r, Nat.add_0_r. auto.
Qed.

Lemma extends_trans w w1 w2 s1 s2 l1 l2 n1 n2 :
  extends w w1 s1 l1 n1 -> extends w1 w2 s2 l2 n2 ->
  extends w w2 (s1 ++ s2) (l1 ++ l2) (n1 + n2).
Proof.
  intros (Hr1 & Hc1 & Ht1 & Hl1 & Hn1) (Hr2 & Hc2 & Ht2 & Hl2 & Hn2).
  unfold extends.
  rewrite Hr2, Hr1, Hc2, Hc1, Ht2, Ht1, Hl2, Hl1, Hn2, Hn1, !app_assoc.
  repeat split; lia.
Qed.

Lemma extends_event w ev : extends w (add_event ev w) [ev] [] 0.
Proof.
  unfold extends; simpl. rewrite app_nil_r, Nat.add_0_r. auto.
Qed.

Lemma extends_log w lvl line : extends w (add_log lvl line w) [] [(lvl, line)] 0.
Proof.
  unfold extends; simpl. rewrite app_nil_r, Nat.add_0_r. auto.
Qed.

Lemma extends_tick w : extends w (tick w) [] [] 1.
Proof.
  unfold extends; simpl. rewrite !app_nil_r. repeat split; lia.
Qed.

Lemma extends_eq w w' s l n s' l' n' :
  extends w w' s l n -> s = s' -> l = l' -> n = n' -> extends w w' s' l' n'.
Proof. by intros H <- <- <-. Qed.

(** Chains [extends] steps; the lists and the count are then compared. *)
Ltac extends_chain :=
  eapply extends_eq;
  [ repeat first
      [ eassumption
      | apply extends_tick | apply extends_log | apply extends_event
      | eapply extends_trans ]
  | simpl; rewrite ?app_nil_r; reflexivity .. ].

(** ** One SMTP cycle *)

Ltac relay_case :=
  match goal with
  | |- context [relay ?w ?t ?op] =>
      let H := fresh "Hrelay" in
      destruct (relay w t op) as [?f|] eqn:H; simpl
  end.

Lemma smtp_session_spec cfg msg w :
  exists s ok,
    smtp_cycle cfg msg s ok /\
    extends w (smtp_session cfg msg w).2 s [] 0 /\
    session_outcome ok (smtp_session cfg msg w).1.
Proof.
  unfold smtp_session, with_SMTP, SMTP_exit, try_finally, bind, relay_call.
  destruct (relay w (transcript w) _) as [f|] eqn:Hconnect; simpl.
  { eexists _, false. split; [apply cycle_connect_failed|].
    split; [apply extends_event|by eexists]. }
  repeat relay_case;
    repeat match goal with
           | |- context [fault_class ?f] => destruct (fault_class f) eqn:?; simpl
           end.
  all: solve
    [ eexists _, _; split; [eapply cycle_closed; constructor|];
      split;
      [ unfold extends; simpl;
        rewrite <- ?app_assoc, ?Nat.add_0_r, ?app_nil_r; simpl;
        split_and!; reflexivity
      | unfold session_outcome, quit_clean; simpl;
        repeat match goal with H : fault_class _ = _ |- _ => rewrite H end;
        first [reflexivity | by eexists] ] ].
Qed.

(** ** The two helpers *)

(** Both helpers end alike: the session, then a log line and [True], or
    the [except] clause with its log line and [False]. *)
Ltac session_then_flag :=
  match goal with
  | |- context [smtp_session ?cfg ?m ?w'] =>
      let s := fresh "s" in
      let ok := fresh "ok" in
      let r := fresh "r" in
      let Hcycle := fresh "Hcycle" in
      let Hext := fresh "Hext" in
      let Hout := fresh "Hout" in
      destruct (smtp_session_spec cfg m w') as (s & ok & Hcycle & Hext & Hout);
      destruct (smtp_session cfg m w') as [r ?w];
      simpl in Hext, Hout;
      exists s, ok;
      destruct ok; simpl in Hout;
      [ subst r | destruct Hout as [?f ->] ];
      simpl; eexists; (split; [exact Hcycle|]); (split; [|reflexivity]);
      extends_chain
  end.

Lemma send_email_notification_spec cfg c w :
  exists s ok l,
    smtp_cycle cfg
      (notification_message cfg c (clock w (ticks w)) (clock w (S (ticks w)))) s ok /\
    extends w (send_email_notification cfg c w).2 s l 2 /\
    (send_email_notification cfg c w).1 = Normal ok.
Proof.
  unfold send_email_notification, try_except, bind, datetime_now; simpl.
  session_then_flag.
Qed.

Lemma send_confirmation_email_spec cfg c w :
  exists s ok l,
    smtp_cycle cfg (confirmation_message cfg c) s ok /\
    extends w (send_confirmation_email cfg c w).2 s l 0 /\
    (send_confirmation_email cfg c w).1 = Normal ok.
Proof.
  unfold send_confirmation_email, try_except, bind; simpl.
  session_then_flag.
Qed.

(** What the flag of a cycle says about the transcript. *)
Lemma smtp_cycle_true cfg msg s :
  smtp_cycle cfg msg s true ->
  exists q,
    quit_clean q = true /\
    s = [Called (SMTP_connect (smtp_server cfg) (smtp_port cfg)) None;
         Called SMTP_starttls None;
         Called (SMTP_login (sender_email cfg) (sender_password cfg)) None;
         Called (SMTP_send_message msg) None;
         Called SMTP_quit q;
         Closed].
Proof.
  inversion 1 as [|steps sent q Hsteps Hs Hok]; subst.
  apply andb_prop in Hok as [-> Hq].
  inversion Hsteps; subst. by exists q.
Qed.

Lemma smtp_cycle_false cfg msg s :
  smtp_cycle cfg msg s false ->
  exists op f, In (Called op (Some f)) s.
Proof.
  inversion 1 as [f|steps sent q Hsteps Hs Hok]; subst.
  - do 2 eexists. by left.
  - inversion Hsteps; subst; simpl in *;
      try (do 2 eexists; simpl; eauto 10; fail).
    destruct q as [f|]; [|discriminate].
    do 2 eexists; simpl; eauto 10.
Qed.

(** Every cycle starts with a connect to the configured relay. *)
Lemma smtp_cycle_connects cfg msg s ok :
  smtp_cycle cfg msg s ok ->
  exists a rest,
    s = Called (SMTP_connect (smtp_server cfg) (smtp_port cfg)) a :: rest.
Proof. inversion 1; by do 2 eexists. Qed.

(** A cycle opens at most one connection, hands over at most one
    message on it and closes it. *)
Lemma smtp_cycle_separate cfg msg s ok rest :
  smtp_cycle cfg msg s ok ->
  separate_cycles_from None (s ++ rest) = separate_cycles_from None rest.
Proof.
  inversion 1 as [f|steps sent q Hsteps]; subst; [reflexivity|].
  inversion Hsteps; subst; reflexivity.
Qed.

(** ** One run of the handler *)

Lemma submit_consultation_run cfg c w :
  let w0 := add_log INFO (received_line c) w in
  let msg1 := notification_message cfg c (clock w (ticks w)) (clock w (S (ticks w))) in
  let msg2 := confirmation_message cfg c in
  exists s1 ok1 l1 w1 s2 ok2 l2 w2,
    send_email_notification cfg c w0 = (Normal ok1, w1) /\
    send_confirmation_email cfg c w1 = (Normal ok2, w2) /\
    smtp_cycle cfg msg1 s1 ok1 /\ extends w0 w1 s1 l1 2 /\
    smtp_cycle cfg msg2 s2 ok2 /\ extends w1 w2 s2 l2 0 /\
    submit_consultation_try (send_email_notification cfg) (send_confirmation_email cfg) c w =
      (if ok1 || ok2
       then (Normal (success_body (clock w (ticks w + 2)%nat)), tick w2)
       else (Raised (HTTPException 500 both_failed_detail), w2)) /\
    submit_consultation cfg c w =
      (if ok1 || ok2
       then (Normal (success_body (clock w (ticks w + 2)%nat)), tick w2)
       else (Raised (HTTPException 500 generic_detail),
             add_log ERROR
               ("Error processing consultation request: "
                +:+ str_exn (HTTPException 500 both_failed_detail)) w2)).
Proof.
  intros w0 msg1 msg2.
  destruct (send_email_notification_spec cfg c w0) as (s1 & ok1 & l1 & Hc1 & He1 & Hr1).
  destruct (send_email_notification cfg c w0) as [r1 w1] eqn:Hrun1.
  destruct (send_confirmation_email_spec cfg c w1) as (s2 & ok2 & l2 & Hc2 & He2 & Hr2).
  destruct (send_confirmation_email cfg c w1) as [r2 w2] eqn:Hrun2.
  simpl in He1, Hr1, He2, Hr2. subst r1 r2.
  exists s1, ok1, l1, w1, s2, ok2, l2, w2.
  assert (Hclock : clock w2 (ticks w2) = clock w (ticks w + 2)%nat).
  { destruct He1 as (_ & Hk1 & _ & _ & Ht1), He2 as (_ & Hk2 & _ & _ & Ht2).
    rewrite Hk2, Hk1, Ht2, Ht1. simpl. f_equal. lia. }
  assert (Htry :
    submit_consultation_try (send_email_notification cfg) (send_confirmation_email cfg) c w =
      (if ok1 || ok2
       then (Normal (success_body (clock w (ticks w + 2)%nat)), tick w2)
       else (Raised (HTTPException 500 both_failed_detail), w2))).
  { unfold submit_consultation_try, bind, logger_info.
    fold (received_line c). fold w0. rewrite Hrun1, Hrun2.
    destruct ok1, ok2; simpl; unfold success_body; by rewrite ?Hclock. }
  split_and!; try done.
  unfold submit_consultation, submit_consultation_with, try_except.
  rewrite Htry. by destruct ok1, ok2.
Qed.

(** ** Responses of [POST /api/consultation] *)

(** The handler over any two helpers: what the caller gets, by what the
    helpers did. *)
Lemma submit_consultation_with_cases notify confirm c w :
  let resp := respond (submit_consultation_with notify confirm c w).1 in
  match notify c (add_log INFO (received_line c) w) with
  | (Raised e, _) =>
      if is_Exception e then resp = ResponseError 500 generic_detail
      else resp = ResponseUnhandled
  | (Normal sent1, w1) =>
      match confirm c w1 with
      | (Raised e, _) =>
          if is_Exception e then resp = ResponseError 500 generic_detail
          else resp = ResponseUnhandled
      | (Normal sent2, w2) =>
          if sent1 || sent2
          then resp = Response200 (success_body (clock w2 (ticks w2)))
          else resp = ResponseError 500 generic_detail
      end
  end.
Proof.
  unfold submit_consultation_with, submit_consultation_try, try_except, bind,
    logger_info.
  fold (received_line c).
  destruct (notify c _) as [[sent1|e1] w1]; simpl.
  - destruct (confirm c w1) as [[sent2|e2] w2]; simpl.
    + by destruct sent1, sent2.
    + by destruct e2.
  - by destruct e1.
Qed.

(** C1. For every valid request, [POST /api/consultation] answers with
    the success body exactly when at least one of the two helpers reports
    its e-mail as sent, and with an HTTP 500 exactly when both report a
    failure.  More generally, over any two helpers: the answer is an HTTP
    500 exactly when both return [False] or one of them lets an exception
    (an [Exception]) escape, and the success body exactly when none raises
    and one returns [True]. *)
Theorem consultation_success_iff_one_send cfg c w :
  (exists sent1 w1 sent2 w2,
     send_email_notification cfg c (add_log INFO (received_line c) w)
       = (Normal sent1, w1) /\
     send_confirmation_email cfg c w1 = (Normal sent2, w2) /\
     let resp := respond (submit_consultation cfg c w).1 in
     (is_success resp = true <-> sent1 = true \/ sent2 = true) /\
     (is_error_500 resp = true <-> sent1 = false /\ sent2 = false) /\
     (is_success resp = true \/ is_error_500 resp = true)) /\
  (forall notify confirm,
     let resp := respond (submit_consultation_with notify confirm c w).1 in
     match notify c (add_log INFO (received_line c) w) with
     | (Raised e, _) =>
         is_Exception e = true -> is_error_500 resp = true /\ is_success resp = false
     | (Normal sent1, w1) =>
         match confirm c w1 with
         | (Raised e, _) =>
             is_Exception e = true -> is_error_500 resp = true /\ is_success resp = false
         | (Normal sent2, _) =>
             (is_success resp = true <-> sent1 = true \/ sent2 = true) /\
             (is_error_500 resp = true <-> sent1 = false /\ sent2 = false)
         end
     end).
Proof.
  split.
  - destruct (submit_consultation_run cfg c w)
      as (s1 & ok1 & l1 & w1 & s2 & ok2 & l2 & w2 & H1 & H2 & _ & _ & _ & _ & _ & Hrun).
    exists ok1, w1, ok2, w2. split; [exact H1|]. split; [exact H2|].
    rewrite Hrun. destruct ok1, ok2; simpl; intuition congruence.
  - intros notify confirm resp.
    pose proof (submit_consultation_with_cases notify confirm c w) as H.
    fold resp in H. simpl in H.
    destruct (notify c _) as [[sent1|e1] w1].
    + destruct (confirm c w1) as [[sent2|e2] w2].
      * destruct sent1, sent2; simpl in H; rewrite H; simpl; intuition congruence.
      * intros He. rewrite He in H. by rewrite H.
    + intros He. rewrite He in H. by rewrite H.
Qed.

(** C2. For every valid request the handler runs both helpers, one after
    the other, whatever the first one reports: each helper returns a
    boolean (its failure is caught inside it and recorded), the SMTP
    traffic of the handler is the cycle of the notification followed by
    the cycle of the confirmation, and each of the two starts with a
    connect to the relay, also when the other one failed. *)
Theorem both_sends_attempted cfg c w :
  exists sent1 w1 s1 sent2 w2 s2 a1 rest1 a2 rest2,
    send_email_notification cfg c (add_log INFO (received_line c) w)
      = (Normal sent1, w1) /\
    send_confirmation_email cfg c w1 = (Normal sent2, w2) /\
    transcript w1 = transcript w ++ s1 /\
    transcript w2 = transcript w1 ++ s2 /\
    transcript (submit_consultation cfg c w).2 = transcript w ++ s1 ++ s2 /\
    s1 = Called (SMTP_connect (smtp_server cfg) (smtp_port cfg)) a1 :: rest1 /\
    s2 = Called (SMTP_connect (smtp_server cfg) (smtp_port cfg)) a2 :: rest2.
Proof.
  destruct (submit_consultation_run cfg c w)
    as (s1 & ok1 & l1 & w1 & s2 & ok2 & l2 & w2
        & H1 & H2 & Hc1 & He1 & Hc2 & He2 & _ & Hrun).
  destruct (smtp_cycle_connects _ _ _ _ Hc1) as (a1 & rest1 & Hs1).
  destruct (smtp_cycle_connects _ _ _ _ Hc2) as (a2 & rest2 & Hs2).
  destruct He1 as (_ & _ & Ht1 & _), He2 as (_ & _ & Ht2 & _).
  simpl in Ht1.
  exists ok1, w1, s1, ok2, w2, s2, a1, rest1, a2, rest2.
  split_and!; try done.
  rewrite Hrun.
  destruct (ok1 || ok2); simpl; by rewrite Ht2, Ht1, <- app_assoc.
Qed.

(** C5. Whatever goes wrong in the handler, the caller of
    [POST /api/consultation] gets the same error: status 500 with one
    fixed detail.  Two failing runs cannot be told apart by their
    response, whichever request, world, failing helper or exception they
    come from. *)
Theorem error_detail_is_generic notify confirm c w notify' confirm' c' w' sc d sc' d' :
  respond (submit_consultation_with notify confirm c w).1 = ResponseError sc d ->
  respond (submit_consultation_with notify' confirm' c' w').1 = ResponseError sc' d' ->
  sc = 500 /\ d = generic_detail /\ sc' = sc /\ d' = d.
Proof.
  assert (Hone : forall n k r v x y,
    respond (submit_consultation_with n k r v).1 = ResponseError x y ->
    x = 500 /\ y = generic_detail).
  { intros n k r v x y H.
    pose proof (submit_consultation_with_cases n k r v) as Hc. simpl in Hc.
    rewrite H in Hc.
    destruct (n r _) as [[b1|e1] v1].
    - destruct (k r v1) as [[b2|e2] v2].
      + destruct (b1 || b2); [discriminate|]. by inversion Hc.
      + destruct (is_Exception e2); [|discriminate]. by inversion Hc.
    - destruct (is_Exception e1); [|discriminate]. by inversion Hc. }
  intros H H'.
  destruct (Hone _ _ _ _ _ _ H) as [-> ->].
  destruct (Hone _ _ _ _ _ _ H') as [-> ->].
  done.
Qed.

(** C6. When both helpers report a failure, the [HTTPException] that the
    [try] block raises, with the detail of the both-failed case, is an
    [Exception]: the handler's own [except] clause catches it, logs it and
    raises the generic one.  The caller gets the generic detail, and no
    run of the handler shows the both-failed detail. *)
Theorem both_failed_detail_is_masked cfg c w :
  (forall sc d,
     respond (submit_consultation cfg c w).1 = ResponseError sc d ->
     d <> both_failed_detail) /\
  (forall w1 w2,
     send_email_notification cfg c (add_log INFO (received_line c) w)
       = (Normal false, w1) ->
     send_confirmation_email cfg c w1 = (Normal false, w2) ->
     submit_consultation_try (send_email_notification cfg)
       (send_confirmation_email cfg) c w
       = (Raised (HTTPException 500 both_failed_detail), w2) /\
     is_Exception (HTTPException 500 both_failed_detail) = true /\
     submit_consultation cfg c w
       = submit_consultation_except (HTTPException 500 both_failed_detail) w2 /\
     respond (submit_consultation cfg c w).1 = ResponseError 500 generic_detail).
Proof.
  destruct (submit_consultation_run cfg c w)
    as (s1 & ok1 & l1 & w1 & s2 & ok2 & l2 & w2
        & H1 & H2 & _ & _ & _ & _ & Htry & Hrun).
  split.
  - intros sc d. rewrite Hrun.
    destruct (ok1 || ok2); simpl; [discriminate|].
    intros [= <- <-]. discriminate.
  - intros v1 v2 Hv1 Hv2.
    rewrite H1 in Hv1. injection Hv1 as -> ->.
    rewrite H2 in Hv2. injection Hv2 as -> ->.
    simpl in Htry, Hrun. rewrite Htry, Hrun. done.
Qed.

(** C9. For every valid request, the message of the first cycle is
    addressed to the configured [receiver_email] and the message of the
    second one to the address of the submitter; each is handed to the
    relay in a cycle of its own (connect, STARTTLS, login, the message,
    QUIT and close, up to the first call that fails), and the second cycle
    starts after the first one is over: no connection is open when a
    connect is made, and none carries two messages. *)
Theorem two_messages_two_cycles cfg c w :
  let msg1 := notification_message cfg c (clock w (ticks w)) (clock w (S (ticks w))) in
  let msg2 := confirmation_message cfg c in
  get_header "To" msg1 = Some (receiver_email cfg) /\
  get_header "To" msg2 = Some (email c) /\
  exists s1 sent1 s2 sent2,
    transcript (submit_consultation cfg c w).2 = transcript w ++ s1 ++ s2 /\
    smtp_cycle cfg msg1 s1 sent1 /\
    smtp_cycle cfg msg2 s2 sent2 /\
    separate_cycles (s1 ++ s2) = true.
Proof.
  intros msg1 msg2.
  split; [reflexivity|]. split; [reflexivity|].
  destruct (submit_consultation_run cfg c w)
    as (s1 & ok1 & l1 & w1 & s2 & ok2 & l2 & w2
        & H1 & H2 & Hc1 & He1 & Hc2 & He2 & _ & Hrun).
  destruct He1 as (_ & _ & Ht1 & _), He2 as (_ & _ & Ht2 & _).
  simpl in Ht1.
  exists s1, ok1, s2, ok2. split_and!; try done.
  - rewrite Hrun.
    destruct (ok1 || ok2); simpl; by rewrite Ht2, Ht1, <- app_assoc.
  - unfold separate_cycles.
    rewrite (smtp_cycle_separate _ _ _ _ _ Hc1).
    rewrite <- (app_nil_r s2).
    by rewrite (smtp_cycle_separate _ _ _ _ _ Hc2).
Qed.

(** C10. Both helpers are total: for every request and every behaviour
    of the relay they return a boolean and raise nothing.  They return
    [True] when the relay took the message, and [False] when a call into
    the relay failed. *)
Theorem helpers_never_raise cfg c w :
  (exists sent s l,
     (send_email_notification cfg c w).1 = Normal sent /\
     extends w (send_email_notification cfg c w).2 s l 2 /\
     if sent
     then In (Called (SMTP_send_message
                        (notification_message cfg c (clock w (ticks w))
                           (clock w (S (ticks w))))) None) s
     else exists op f, In (Called op (Some f)) s) /\
  (exists sent s l,
     (send_confirmation_email cfg c w).1 = Normal sent /\
     extends w (send_confirmation_email cfg c w).2 s l 0 /\
     if sent
     then In (Called (SMTP_send_message (confirmation_message cfg c)) None) s
     else exists op f, In (Called op (Some f)) s).
Proof.
  split.
  - destruct (send_email_notification_spec cfg c w) as (s & ok & l & Hc & He & Hr).
    exists ok, s, l. split_and!; try done. destruct ok.
    + destruct (smtp_cycle_true _ _ _ Hc) as (q & _ & ->). simpl. tauto.
    + by apply smtp_cycle_false in Hc.
  - destruct (send_confirmation_email_spec cfg c w) as (s & ok & l & Hc & He & Hr).
    exists ok, s, l. split_and!; try done. destruct ok.
    + destruct (smtp_cycle_true _ _ _ Hc) as (q & _ & ->). simpl. tauto.
    + by apply smtp_cycle_false in Hc.
Qed.

(** ** Validation comes first *)

(** C3. A body whose [email] field is not a syntactically valid address
    (as pydantic's [EmailStr] decides it) is answered with the validation
    error before the handler runs: the world is untouched, so nothing was
    logged and no call into the relay was made. *)
Theorem invalid_email_rejected_before_send
    (str_validate EmailStr_validate : pyval -> option string) cfg body w :
  email_field_invalid EmailStr_validate body ->
  post_api_consultation str_validate EmailStr_validate cfg body w = (Response422, w) /\
  transcript (post_api_consultation str_validate EmailStr_validate cfg body w).2
    = transcript w /\
  log (post_api_consultation str_validate EmailStr_validate cfg body w).2 = log w.
Proof.
  intros Hbad.
  assert (Hnone : validate_ConsultationRequest str_validate EmailStr_validate body = None).
  { destruct body as [| | | | |d]; try reflexivity.
    unfold validate_ConsultationRequest. simpl in Hbad.
    destruct (dict_get "name" d ≫= str_validate) as [n|]; [simpl|reflexivity].
    destruct (dict_get "email" d) as [v|]; [simpl; by rewrite Hbad|reflexivity]. }
  unfold post_api_consultation. by rewrite Hnone.
Qed.

(** ** The company line *)

Lemma string_app_nil_r (s : string) : s +:+ EmptyString = s.
Proof. induction s as [|a s IH]; [reflexivity|]. unfold String.app in *. simpl. by rewrite IH. Qed.

Lemma string_app_assoc (a b c : string) : (a +:+ b) +:+ c = a +:+ b +:+ c.
Proof. induction a as [|x a IH]; [reflexivity|]. unfold String.app in *. simpl. by rewrite IH. Qed.

Lemma is_substring_refl s : is_substring s s.
Proof. exists EmptyString, EmptyString. by rewrite string_app_nil_r. Qed.

Lemma is_substring_app_l s a b : is_substring s a -> is_substring s (a +:+ b).
Proof.
  intros (pre & post & ->). exists pre, (post +:+ b).
  by rewrite !string_app_assoc.
Qed.

Lemma is_substring_app_r s a b : is_substring s b -> is_substring s (a +:+ b).
Proof.
  intros (pre & post & ->). exists (a +:+ pre), post.
  by rewrite !string_app_assoc.
Qed.

Lemma is_substring_trans s x t :
  is_substring s x -> is_substring x t -> is_substring s t.
Proof.
  intros (p1 & q1 & ->) (p2 & q2 & ->).
  exists (p2 +:+ p1), (q1 +:+ q2). by rewrite !string_app_assoc.
Qed.

(** Every line of a triple-quoted literal is inside it. *)
Lemma is_substring_lines x ls : In x ls -> is_substring x (lines ls).
Proof.
  unfold lines. induction ls as [|y ls IH]; [done|].
  intros [->|Hin].
  - destruct ls as [|z ls]; [apply is_substring_refl|].
    change (is_substring x (x +:+ nl +:+ String.concat nl (z :: ls))).
    apply is_substring_app_l, is_substring_refl.
  - destruct ls as [|z ls]; [done|].
    change (is_substring x (y +:+ nl +:+ String.concat nl (z :: ls))).
    by apply is_substring_app_r, is_substring_app_r, IH.
Qed.

Ltac pick_line := simpl; repeat first [left; reflexivity | right].

(** What stands for the company is in both bodies. *)
Lemma company_in_bodies c ts :
  is_substring (py_or (company c) "Not provided") (notification_text c ts) /\
  is_substring (py_or (company c) "Not provided") (notification_html c ts).
Proof.
  split.
  - eapply is_substring_trans;
      [|apply (is_substring_lines
                 ("        Company: " +:+ py_or (company c) "Not provided"));
        unfold notification_text; pick_line].
    apply is_substring_app_r, is_substring_refl.
  - eapply is_substring_trans;
      [|apply (is_substring_lines
                 ("                <p><strong>Company:</strong> "
                  +:+ py_or (company c) "Not provided" +:+ "</p>"));
        unfold notification_html; pick_line].
    apply is_substring_app_r, is_substring_app_l, is_substring_refl.
Qed.

(** C4. The internal notification has two bodies, the plain text and the
    HTML one.  When [company] is omitted both contain ["Not provided"],
    and when it is ["Acme"] both contain ["Acme"]. *)
Theorem company_or_placeholder_in_bodies cfg c t1 t2 :
  let text := notification_text c (strftime t1) in
  let html := notification_html c (strftime t2) in
  msg_parts (notification_message cfg c t1 t2)
    = [mk_part "plain" text; mk_part "html" html] /\
  (company c = None ->
   is_substring "Not provided" text /\ is_substring "Not provided" html) /\
  (company c = Some "Acme" ->
   is_substring "Acme" text /\ is_substring "Acme" html).
Proof.
  intros text html. split; [reflexivity|].
  split; intros Hc.
  - pose proof (company_in_bodies c (strftime t1)) as [H1 _].
    pose proof (company_in_bodies c (strftime t2)) as [_ H2].
    rewrite Hc in H1, H2. by split.
  - pose proof (company_in_bodies c (strftime t1)) as [H1 _].
    pose proof (company_in_bodies c (strftime t2)) as [_ H2].
    rewrite Hc in H1, H2. by split.
Qed.

(** ** Configuration *)

(** C8. The configuration reads five variables and nothing else of the
    environment.  [SMTP_SERVER] defaults to ["smtp.gmail.com"],
    [SMTP_PORT] to 587 and [RECEIVER_EMAIL] to ["hello@neuralforge.ai"];
    the sender's address and password are those of [SENDER_EMAIL] and
    [SENDER_PASSWORD]. *)
Theorem email_config_variables_and_defaults (environ : gmap string string) :
  (forall environ' : gmap string string,
     (forall k, In k config_variables -> environ' !! k = environ !! k) ->
     EMAIL_CONFIG environ' = EMAIL_CONFIG environ) /\
  (forall cfg, EMAIL_CONFIG environ = Normal cfg ->
     smtp_server cfg = default "smtp.gmail.com" (environ !! "SMTP_SERVER") /\
     py_int (default "587" (environ !! "SMTP_PORT")) = Normal (smtp_port cfg) /\
     receiver_email cfg = default "hello@neuralforge.ai" (environ !! "RECEIVER_EMAIL") /\
     (forall v, environ !! "SENDER_EMAIL" = Some v -> sender_email cfg = v) /\
     (forall v, environ !! "SENDER_PASSWORD" = Some v -> sender_password cfg = v)) /\
  (environ !! "SMTP_PORT" = None ->
   exists cfg, EMAIL_CONFIG environ = Normal cfg /\ smtp_port cfg = 587).
Proof.
  split_and!.
  - intros environ' Hsame. unfold EMAIL_CONFIG, getenv.
    rewrite !Hsame by (unfold config_variables; simpl; tauto). done.
  - intros cfg. unfold EMAIL_CONFIG, getenv.
    destruct (environ !! "SMTP_PORT") as [p|]; simpl.
    + destruct (py_int p) as [port|e]; [|discriminate].
      intros [= <-]; simpl.
      split_and!; try done; by intros v ->.
    + intros [= <-]; simpl.
      split_and!; try done; by intros v ->.
  - intros Hport. unfold EMAIL_CONFIG, getenv. rewrite Hport.
    eexists. split; reflexivity.
Qed.

(** Without [SENDER_EMAIL] and [SENDER_PASSWORD] the configuration holds
    the placeholders of the source. *)
Lemma email_config_sender_placeholders (environ : gmap string string) cfg :
  EMAIL_CONFIG environ = Normal cfg ->
  (environ !! "SENDER_EMAIL" = None -> sender_email cfg = "your-email@gmail.com") /\
  (environ !! "SENDER_PASSWORD" = None -> sender_password cfg = "your-app-password").
Proof.
  unfold EMAIL_CONFIG, getenv.
  destruct (py_int _) as [port|e]; [|discriminate].
  intros [= <-]; simpl. split; by intros ->.
Qed.

(** ** Timestamps *)

Lemma digit_val_digit_char d : 0 <= d < 10 -> digit_val (digit_char d) = Some d.
Proof.
  intros Hd.
  assert (Hcases : d = 0 \/ d = 1 \/ d = 2 \/ d = 3 \/ d = 4 \/
                   d = 5 \/ d = 6 \/ d = 7 \/ d = 8 \/ d = 9) by lia.
  repeat destruct Hcases as [->|Hcases]; try reflexivity.
  by subst.
Qed.

Lemma zero_pad_acc_app w n acc rest :
  zero_pad_acc w n acc +:+ rest = zero_pad_acc w n (acc +:+ rest).
Proof.
  revert n acc. induction w as [|w IH]; intros n acc; [reflexivity|].
  simpl. by rewrite IH.
Qed.

(** Reading [w] digits off what [zero_pad_acc] wrote gives the number
    back. *)
Lemma take_number_zero_pad_acc w k n acc rest :
  take_number (w + k) acc (zero_pad_acc w n rest)
  = take_number k (acc * 10 ^ Z.of_nat w + n mod 10 ^ Z.of_nat w) rest.
Proof.
  revert k n acc rest. induction w as [|w IH]; intros k n acc rest.
  - simpl. rewrite Z.mod_1_r. f_equal. lia.
  - rewrite Nat.add_succ_comm. cbn [zero_pad_acc]. rewrite IH.
    cbn [take_number].
    rewrite digit_val_digit_char by (apply Z.mod_pos_bound; lia).
    f_equal.
    rewrite Nat2Z.inj_succ, Z.pow_succ_r by lia.
    rewrite (Z.rem_mul_r n 10 (10 ^ Z.of_nat w)) by lia.
    lia.
Qed.

Lemma take_number_zero_pad w n rest :
  0 <= n < 10 ^ Z.of_nat w ->
  take_number w 0 (zero_pad w n +:+ rest) = Some (n, rest).
Proof.
  intros Hn. unfold zero_pad. rewrite zero_pad_acc_app.
  change (EmptyString +:+ rest) with rest.
  rewrite <- (Nat.add_0_r w) at 1. rewrite take_number_zero_pad_acc.
  simpl. rewrite Z.mod_small by lia. done.
Qed.

Lemma expect_app c rest : expect c (String c EmptyString +:+ rest) = Some rest.
Proof.
  change (String c EmptyString +:+ rest) with (String c rest).
  simpl. rewrite (proj2 (Ascii.eqb_eq c c) eq_refl). done.
Qed.

Lemma days_in_month_le y m : days_in_month y m <= 31.
Proof.
  unfold days_in_month.
  repeat match goal with |- context [if ?b then _ else _] => destruct b end; lia.
Qed.

Lemma valid_datetime_ranges d :
  valid_datetime d = true ->
  0 <= year d < 10 ^ Z.of_nat 4 /\ 0 <= month d < 10 ^ Z.of_nat 2 /\
  0 <= day d < 10 ^ Z.of_nat 2 /\ 0 <= hour d < 10 ^ Z.of_nat 2 /\
  0 <= minute d < 10 ^ Z.of_nat 2 /\ 0 <= second d < 10 ^ Z.of_nat 2 /\
  0 <= microsecond d < 10 ^ Z.of_nat 6.
Proof.
  unfold valid_datetime. rewrite !andb_true_iff, !Z.leb_le.
  pose proof (days_in_month_le (year d) (month d)).
  simpl. lia.
Qed.

(** A valid [datetime] reads back from its ISO-8601 form. *)
Lemma parse_iso8601_isoformat d :
  valid_datetime d = true -> parse_iso8601 (isoformat d) = Some d.
Proof.
  intros Hvalid.
  destruct (valid_datetime_ranges d Hvalid) as (Hy & Hmo & Hd & Hh & Hmi & Hs & Hus).
  unfold parse_iso8601, isoformat.
  repeat (rewrite take_number_zero_pad by done; cbn [mbind option_bind];
          try (rewrite expect_app; cbn [mbind option_bind])).
  destruct (microsecond d =? 0) eqn:Hzero.
  - apply Z.eqb_eq in Hzero. cbn [mbind option_bind].
    replace (mk_datetime _ _ _ _ _ _ 0) with d by (destruct d; simpl in *; by subst).
    by rewrite Hvalid.
  - change ("." +:+ zero_pad 6 (microsecond d))
      with (String "." (zero_pad 6 (microsecond d))).
    cbn [expect Ascii.eqb Bool.eqb mbind option_bind].
    rewrite <- (string_app_nil_r (zero_pad 6 (microsecond d))).
    rewrite take_number_zero_pad by done. cbn [mbind option_bind].
    replace (mk_datetime _ _ _ _ _ _ _) with d by (by destruct d).
    by rewrite Hvalid.
Qed.

(** C7. Every call of [GET /health] answers with the status
    ["healthy"] and, as timestamp, the reading of the clock taken by that
    very call in ISO-8601 form: a valid reading is read back from it. *)
Theorem health_check_healthy_with_timestamp w :
  let now := clock w (ticks w) in
  get_health w
    = (Response200 [("status", VStr "healthy"); ("timestamp", VStr (isoformat now))],
       tick w) /\
  (valid_datetime now = true -> parse_iso8601 (isoformat now) = Some now).
Proof.
  intros now. split; [reflexivity|]. apply parse_iso8601_isoformat.
Qed.

(** ** Further properties of the code *)

Lemma new_events_app w w' s :
  transcript w' = transcript w ++ s -> new_events w w' = s.
Proof. intros H. unfold new_events. rewrite H. apply drop_app_length. Qed.

Ltac in_list := simpl; repeat first [left; reflexivity | right].

(** The error that leaves a session is one that the relay gave in it. *)
Lemma smtp_session_fault cfg msg w :
  exists s ok,
    smtp_cycle cfg msg s ok /\
    extends w (smtp_session cfg msg w).2 s [] 0 /\
    if ok then (smtp_session cfg msg w).1 = Normal tt
    else exists op f,
           (smtp_session cfg msg w).1 = Raised (RelayError f) /\
           In (Called op (Some f)) s.
Proof.
  unfold smtp_session, with_SMTP, SMTP_exit, try_finally, bind, relay_call.
  destruct (relay w (transcript w) _) as [f|] eqn:Hconnect; simpl.
  { eexists _, false. split; [apply cycle_connect_failed|].
    split; [apply extends_event|]. do 2 eexists. split; [reflexivity|in_list]. }
  repeat relay_case;
    repeat match goal with
           | |- context [fault_class ?f] => destruct (fault_class f) eqn:?; simpl
           end.
  all: solve
    [ eexists _, _; split; [eapply cycle_closed; constructor|];
      split;
      [ unfold extends; simpl;
        rewrite <- ?app_assoc, ?Nat.add_0_r, ?app_nil_r; simpl;
        split_and!; reflexivity
      | unfold quit_clean; simpl;
        repeat match goal with H : fault_class _ = _ |- _ => rewrite H end;
        first [reflexivity | do 2 eexists; split; [reflexivity|in_list]] ] ].
Qed.

Ltac session_then_line :=
  match goal with
  | |- context [smtp_session ?cfg ?m ?w'] =>
      let s := fresh "s" in
      let ok := fresh "ok" in
      let r := fresh "r" in
      let Hcycle := fresh "Hcycle" in
      let Hext := fresh "Hext" in
      let Hout := fresh "Hout" in
      destruct (smtp_session_fault cfg m w') as (s & ok & Hcycle & Hext & Hout);
      destruct (smtp_session cfg m w') as [r ?w];
      simpl in Hext, Hout;
      exists s, ok;
      destruct ok;
      [ subst r | destruct Hout as (?op & ?f & -> & ?Hin) ];
      simpl; eexists; (split; [exact Hcycle|]);
      (split; [extends_chain|]); (split; [reflexivity|]);
      unfold helper_line; first [reflexivity | by do 2 eexists]
  end.

Lemma send_email_notification_line cfg c w :
  exists s ok line,
    smtp_cycle cfg
      (notification_message cfg c (clock w (ticks w)) (clock w (S (ticks w)))) s ok /\
    extends w (send_email_notification cfg c w).2 s [line] 2 /\
    (send_email_notification cfg c w).1 = Normal ok /\
    helper_line "Email notification sent successfully for "
      "Failed to send email notification: " c s ok line.
Proof.
  unfold send_email_notification, try_except, bind, datetime_now; simpl.
  session_then_line.
Qed.

Lemma send_confirmation_email_line cfg c w :
  exists s ok line,
    smtp_cycle cfg (confirmation_message cfg c) s ok /\
    extends w (send_confirmation_email cfg c w).2 s [line] 0 /\
    (send_confirmation_email cfg c w).1 = Normal ok /\
    helper_line "Confirmation email sent to "
      "Failed to send confirmation email: " c s ok line.
Proof.
  unfold send_confirmation_email, try_except, bind; simpl.
  session_then_line.
Qed.

(** One run of the handler, with everything it leaves behind. *)
Lemma submit_consultation_trace cfg c w :
  let msg1 := notification_message cfg c (clock w (ticks w)) (clock w (S (ticks w))) in
  let msg2 := confirmation_message cfg c in
  let w' := (submit_consultation cfg c w).2 in
  exists s1 ok1 line1 s2 ok2 line2,
    smtp_cycle cfg msg1 s1 ok1 /\
    smtp_cycle cfg msg2 s2 ok2 /\
    helper_line "Email notification sent successfully for "
      "Failed to send email notification: " c s1 ok1 line1 /\
    helper_line "Confirmation email sent to "
      "Failed to send confirmation email: " c s2 ok2 line2 /\
    new_events w w' = s1 ++ s2 /\
    log w' = log w ++ [(INFO, received_line c); line1; line2]
                   ++ (if ok1 || ok2 then [] else [both_failed_line]) /\
    ticks w' = (ticks w + (if ok1 || ok2 then 3 else 2))%nat /\
    relay w' = relay w /\ clock w' = clock w /\
    (submit_consultation cfg c w).1 =
      (if ok1 || ok2 then Normal (success_body (clock w (ticks w + 2)%nat))
       else Raised (HTTPException 500 generic_detail)).
Proof.
  intros msg1 msg2 w'. subst w'.
  set (w0 := add_log INFO (received_line c) w).
  destruct (send_email_notification_line cfg c w0)
    as (s1 & ok1 & line1 & Hc1 & He1 & Hr1 & Hl1).
  destruct (send_email_notification cfg c w0) as [r1 w1] eqn:Hrun1.
  destruct (send_confirmation_email_line cfg c w1)
    as (s2 & ok2 & line2 & Hc2 & He2 & Hr2 & Hl2).
  destruct (send_confirmation_email cfg c w1) as [r2 w2] eqn:Hrun2.
  simpl in He1, Hr1, He2, Hr2. subst r1 r2.
  exists s1, ok1, line1, s2, ok2, line2.
  destruct He1 as (Hy1 & Hk1 & Ht1 & Hg1 & Hn1), He2 as (Hy2 & Hk2 & Ht2 & Hg2 & Hn2).
  simpl in Hy1, Hk1, Ht1, Hg1, Hn1.
  assert (Hrun : submit_consultation cfg c w =
    (if ok1 || ok2
     then (Normal (success_body (clock w2 (ticks w2))), tick w2)
     else (Raised (HTTPException 500 generic_detail),
           add_log ERROR
             ("Error processing consultation request: "
              +:+ str_exn (HTTPException 500 both_failed_detail)) w2))).
  { unfold submit_consultation, submit_consultation_with, try_except,
      submit_consultation_try, bind, logger_info.
    fold (received_line c). fold w0. rewrite Hrun1, Hrun2.
    by destruct ok1, ok2. }
  rewrite Hrun.
  split_and!; try done.
  - apply new_events_app.
    destruct (ok1 || ok2); simpl; by rewrite Ht2, Ht1, <- app_assoc.
  - destruct (ok1 || ok2); simpl; rewrite Hg2, Hg1, <- !app_assoc; simpl;
      by rewrite ?app_nil_r.
  - destruct (ok1 || ok2); simpl; lia.
  - destruct (ok1 || ok2); simpl; by rewrite Hy2, Hy1.
  - destruct (ok1 || ok2); simpl; by rewrite Hk2, Hk1.
  - destruct (ok1 || ok2); simpl; [|done].
    rewrite Hk2, Hk1, Hn2, Hn1. do 3 f_equal. lia.
Qed.

(** *** What goes to the relay *)

(** X9. Whatever the relay does, the handler sends the sender's credentials
    on a connection only directly after the relay accepted STARTTLS on
    it, and a message only directly after the relay accepted the login. *)
Theorem credentials_only_after_starttls cfg c w :
  credentials_after_tls (new_events w (submit_consultation cfg c w).2) = true.
Proof.
  destruct (submit_consultation_trace cfg c w)
    as (s1 & ok1 & line1 & s2 & ok2 & line2 & Hc1 & Hc2 & _ & _ & -> & _).
  destruct Hc1 as [f1|steps1 sent1 q1 [f|f|f|]];
    destruct Hc2 as [f2|steps2 sent2 q2 [f'|f'|f'|]]; reflexivity.
Qed.

(** X10. Whatever the relay does, every connect of the handler goes to the
    configured server and port, every login uses the configured sender
    and password, and every message carries the configured sender as its
    [From]. *)
Theorem only_configured_relay_and_sender cfg c w :
  forallb (uses_config cfg) (new_events w (submit_consultation cfg c w).2) = true.
Proof.
  destruct (submit_consultation_trace cfg c w)
    as (s1 & ok1 & line1 & s2 & ok2 & line2 & Hc1 & Hc2 & _ & _ & -> & _).
  destruct Hc1 as [f1|steps1 sent1 q1 [f|f|f|]];
    destruct Hc2 as [f2|steps2 sent2 q2 [f'|f'|f'|]];
    simpl; by rewrite ?String.eqb_refl, ?Z.eqb_refl.
Qed.


Lemma smtp_cycle_message cfg msg s ok m a :
  smtp_cycle cfg msg s ok -> In (Called (SMTP_send_message m) a) s -> m = msg.
Proof.
  intros Hc Hin.
  destruct Hc as [f|steps sent q [f|f|f|]]; simpl in Hin;
    repeat destruct Hin as [Hin|Hin]; try done; congruence.
Qed.

(** X11. The relay is handed nothing but the two messages that the helpers
    compose from the request, the configuration and the clock. *)
Theorem only_composed_messages cfg c w m a :
  In (Called (SMTP_send_message m) a)
     (new_events w (submit_consultation cfg c w).2) ->
  m = notification_message cfg c (clock w (ticks w)) (clock w (S (ticks w))) \/
  m = confirmation_message cfg c.
Proof.
  destruct (submit_consultation_trace cfg c w)
    as (s1 & ok1 & line1 & s2 & ok2 & line2 & Hc1 & Hc2 & _ & _ & -> & _).
  intros Hin. apply in_app_or in Hin as [Hin|Hin].
  - left. by eapply smtp_cycle_message.
  - right. by eapply smtp_cycle_message.
Qed.

(** *** When a helper says [True] *)

Lemma smtp_cycle_full cfg msg q ok :
  smtp_cycle cfg msg (cycle_with_quit cfg msg q) ok -> ok = quit_clean q.
Proof.
  unfold cycle_with_quit.
  inversion 1 as [|steps sent q' Hsteps Hs Hok]; subst.
  inversion Hsteps; subst; simpl in *; try discriminate.
  by injection Hs as ->.
Qed.

(** X8. A helper returns [True] exactly when connect, STARTTLS, login and
    the message all went through and QUIT did not fail, other than by a
    server that had hung up; in every other case it returns [False]. *)
Theorem helper_true_iff_clean_cycle cfg c w :
  ((send_email_notification cfg c w).1 = Normal true <->
   exists q,
     quit_clean q = true /\
     new_events w (send_email_notification cfg c w).2
       = cycle_with_quit cfg
           (notification_message cfg c (clock w (ticks w)) (clock w (S (ticks w)))) q) /\
  ((send_confirmation_email cfg c w).1 = Normal true <->
   exists q,
     quit_clean q = true /\
     new_events w (send_confirmation_email cfg c w).2
       = cycle_with_quit cfg (confirmation_message cfg c) q).
Proof.
  split.
  - destruct (send_email_notification_spec cfg c w) as (s & ok & l & Hc & He & Hr).
    destruct He as (_ & _ & Ht & _). rewrite Hr, (new_events_app _ _ _ Ht).
    split.
    + intros [= ->]. by apply smtp_cycle_true.
    + intros (q & Hq & ->). apply smtp_cycle_full in Hc. congruence.
  - destruct (send_confirmation_email_spec cfg c w) as (s & ok & l & Hc & He & Hr).
    destruct He as (_ & _ & Ht & _). rewrite Hr, (new_events_app _ _ _ Ht).
    split.
    + intros [= ->]. by apply smtp_cycle_true.
    + intros (q & Hq & ->). apply smtp_cycle_full in Hc. congruence.
Qed.

(** *** A failing QUIT *)

Lemma smtp_session_quit_fails cfg msg f v :
  relay v = relay_quit_fails f ->
  exists v',
    smtp_session cfg msg v
      = (if quit_clean (Some f) then Normal tt else Raised (RelayError f), v') /\
    extends v v' (cycle_with_quit cfg msg (Some f)) [] 0.
Proof.
  intros Hv.
  unfold smtp_session, with_SMTP, SMTP_exit, try_finally, bind, relay_call.
  repeat (rewrite Hv; simpl).
  destruct (fault_class f); simpl; eexists; (split; [reflexivity|]);
    unfold extends; simpl;
    rewrite <- ?app_assoc, ?Nat.add_0_r, ?app_nil_r; simpl;
    split_and!; reflexivity.
Qed.

Lemma helpers_quit_fails cfg c f v :
  relay v = relay_quit_fails f ->
  (exists v' l,
     send_email_notification cfg c v = (Normal (quit_clean (Some f)), v') /\
     extends v v'
       (cycle_with_quit cfg
          (notification_message cfg c (clock v (ticks v)) (clock v (S (ticks v))))
          (Some f)) l 2) /\
  (exists v' l,
     send_confirmation_email cfg c v = (Normal (quit_clean (Some f)), v') /\
     extends v v' (cycle_with_quit cfg (confirmation_message cfg c) (Some f)) l 0).
Proof.
  intros Hv. remember (quit_clean (Some f)) as clean eqn:Hclean. split.
  - unfold send_email_notification, try_except, bind, datetime_now; simpl.
    match goal with
    | |- context [smtp_session cfg ?m ?u] =>
        destruct (smtp_session_quit_fails cfg m f u Hv) as (v' & Hs & Hext)
    end.
    rewrite <- Hclean in Hs. rewrite Hs.
    destruct clean; simpl; do 2 eexists;
      (split; [reflexivity|]); extends_chain.
  - unfold send_confirmation_email, try_except, bind; simpl.
    match goal with
    | |- context [smtp_session cfg ?m ?u] =>
        destruct (smtp_session_quit_fails cfg m f u Hv) as (v' & Hs & Hext)
    end.
    rewrite <- Hclean in Hs. rewrite Hs.
    destruct clean; simpl; do 2 eexists;
      (split; [reflexivity|]); extends_chain.
Qed.

(** X13. When the relay takes both messages and then fails each QUIT, the
    mails are on their way, but what the caller gets depends on the QUIT
    alone: the success body when the server had only hung up, and the
    HTTP 500 for every other error, as both helpers then return
    [False]. *)
Theorem quit_failure_after_delivery cfg c f tr lg clk n :
  let w := {| relay := relay_quit_fails f; transcript := tr; log := lg;
              clock := clk; ticks := n |} in
  let msg1 := notification_message cfg c (clk n) (clk (S n)) in
  let msg2 := confirmation_message cfg c in
  new_events w (submit_consultation cfg c w).2
    = cycle_with_quit cfg msg1 (Some f) ++ cycle_with_quit cfg msg2 (Some f) /\
  respond (submit_consultation cfg c w).1
    = (if quit_clean (Some f)
       then Response200 (success_body (clk (n + 2)%nat))
       else ResponseError 500 generic_detail).
Proof.
  intros w msg1 msg2.
  destruct (submit_consultation_run cfg c w)
    as (s1 & ok1 & l1 & w1 & s2 & ok2 & l2 & w2
        & H1 & H2 & _ & _ & _ & _ & _ & Hrun).
  destruct (helpers_quit_fails cfg c f (add_log INFO (received_line c) w) eq_refl)
    as [(v1 & k1 & Hv1 & He1) _].
  rewrite Hv1 in H1. injection H1 as <- <-.
  assert (Hr1 : relay v1 = relay_quit_fails f) by (by destruct He1 as (-> & _)).
  destruct (helpers_quit_fails cfg c f v1 Hr1) as [_ (v2 & k2 & Hv2 & He2)].
  rewrite Hv2 in H2. injection H2 as <- <-.
  destruct He1 as (_ & Hk1 & Ht1 & _), He2 as (_ & _ & Ht2 & _).
  simpl in Hk1, Ht1.
  rewrite Hrun. unfold quit_clean. split.
  - apply new_events_app.
    destruct (fault_class f); simpl; by rewrite Ht2, Ht1, <- app_assoc.
  - by destruct (fault_class f).
Qed.

(** *** The log and the clock *)

(** X14. One request leaves three log lines, or four: the line of the request,
    one line per helper (its success line, or its failure line with the
    text of an error that the relay gave in that helper's cycle) and, when
    both helpers failed, the line of the handler, which holds the
    both-failed detail that the caller never gets. *)
Theorem failures_are_logged cfg c w :
  let w' := (submit_consultation cfg c w).2 in
  exists s1 ok1 line1 s2 ok2 line2,
    new_events w w' = s1 ++ s2 /\
    helper_line "Email notification sent successfully for "
      "Failed to send email notification: " c s1 ok1 line1 /\
    helper_line "Confirmation email sent to "
      "Failed to send confirmation email: " c s2 ok2 line2 /\
    is_success (respond (submit_consultation cfg c w).1) = ok1 || ok2 /\
    log w' = log w ++ [(INFO, received_line c); line1; line2]
                   ++ (if ok1 || ok2 then [] else [both_failed_line]).
Proof.
  destruct (submit_consultation_trace cfg c w)
    as (s1 & ok1 & line1 & s2 & ok2 & line2
        & _ & _ & Hl1 & Hl2 & Hnew & Hlog & _ & _ & _ & Hres).
  exists s1, ok1, line1, s2, ok2, line2.
  split_and!; try done.
  rewrite Hres. by destruct (ok1 || ok2).
Qed.

(** X15. A successful answer tells nothing about which e-mail went out: it is
    the fixed body with the third reading of the clock that the request
    takes, after the two of the notification.  A failing request takes
    two readings. *)
Theorem success_body_is_uniform cfg c w :
  let r := submit_consultation cfg c w in
  (respond r.1 = Response200 (success_body (clock w (ticks w + 2)%nat)) /\
   ticks r.2 = (ticks w + 3)%nat) \/
  (respond r.1 = ResponseError 500 generic_detail /\
   ticks r.2 = (ticks w + 2)%nat).
Proof.
  destruct (submit_consultation_trace cfg c w)
    as (s1 & ok1 & line1 & s2 & ok2 & line2
        & _ & _ & _ & _ & _ & _ & Hticks & _ & _ & Hres).
  simpl. rewrite Hres, Hticks.
  destruct (ok1 || ok2); [left|right]; done.
Qed.

(** *** What the bodies show *)

Ltac line_of l := eapply is_substring_trans; [|apply (is_substring_lines l); pick_line].

(** X5. Both bodies of the notification show the name, the address, the
    message and the time of receipt as they are: nothing is escaped, in
    the HTML body either. *)
Theorem notification_shows_fields_verbatim c ts :
  (is_substring (name c) (notification_text c ts) /\
   is_substring (email c) (notification_text c ts) /\
   is_substring (message c) (notification_text c ts) /\
   is_substring ts (notification_text c ts)) /\
  (is_substring (name c) (notification_html c ts) /\
   is_substring (email c) (notification_html c ts) /\
   is_substring (message c) (notification_html c ts) /\
   is_substring ts (notification_html c ts)).
Proof.
  split; split_and!.
  - line_of ("        Name: " +:+ name c).
    apply is_substring_app_r, is_substring_refl.
  - line_of ("        Email: " +:+ email c).
    apply is_substring_app_r, is_substring_refl.
  - line_of ("        " +:+ message c).
    apply is_substring_app_r, is_substring_refl.
  - line_of ("        Received at: " +:+ ts).
    apply is_substring_app_r, is_substring_refl.
  - line_of ("                <p><strong>Name:</strong> " +:+ name c +:+ "</p>").
    apply is_substring_app_r, is_substring_app_l, is_substring_refl.
  - line_of ("                <p><strong>Email:</strong> <a href=" +:+ dq +:+ "mailto:"
             +:+ email c +:+ dq +:+ ">" +:+ email c +:+ "</a></p>").
    do 3 apply is_substring_app_r. apply is_substring_app_l, is_substring_refl.
  - line_of ("                <p style=" +:+ dq +:+ "white-space: pre-wrap;" +:+ dq +:+ ">"
             +:+ message c +:+ "</p>").
    do 5 apply is_substring_app_r. apply is_substring_app_l, is_substring_refl.
  - line_of ("                <p>Received at: " +:+ ts +:+ "</p>").
    apply is_substring_app_r, is_substring_app_l, is_substring_refl.
Qed.

(** X6. A company that is given shows in both bodies as it is; an empty one
    is replaced by the placeholder, like a missing one. *)
Theorem company_shown_or_placeholder c ts s :
  company c = Some s ->
  let shown := match s with
               | EmptyString => "Not provided"
               | _ => s
               end in
  is_substring shown (notification_text c ts) /\
  is_substring shown (notification_html c ts).
Proof.
  intros Hc shown.
  pose proof (company_in_bodies c ts) as H.
  rewrite Hc in H. by destruct s.
Qed.

(** X7. The confirmation greets the submitter by name, and nothing else of
    the request reaches it but the address it is sent to: two requests
    with the same name and address get the same message, whatever their
    company and message are. *)
Theorem confirmation_shows_name_only cfg c :
  is_substring (name c) (confirmation_html c) /\
  forall c', name c' = name c -> email c' = email c ->
             confirmation_message cfg c' = confirmation_message cfg c.
Proof.
  split.
  - line_of ("              <h2 style=" +:+ dq +:+ "color: #495057;" +:+ dq
             +:+ ">Thank you for reaching out, " +:+ name c +:+ "!</h2>").
    do 5 apply is_substring_app_r. apply is_substring_app_l, is_substring_refl.
  - intros c' Hn He.
    unfold confirmation_message, confirmation_html. by rewrite Hn, He.
Qed.

(** *** Loading the configuration *)




(** *** The model of the request *)

(** X3. [name], [email] and [message] are required: a body without one of
    them is answered with the validation error, and nothing is logged or
    sent. *)
Theorem missing_field_rejected
    (str_validate EmailStr_validate : pyval -> option string) cfg d w k :
  In k ["name"; "email"; "message"] ->
  dict_get k d = None ->
  post_api_consultation str_validate EmailStr_validate cfg (VDict d) w
    = (Response422, w).
Proof.
  intros Hk Hnone.
  assert (Hv : validate_ConsultationRequest str_validate EmailStr_validate (VDict d)
               = None).
  { unfold validate_ConsultationRequest.
    destruct Hk as [<-|[<-|[<-|[]]]]; rewrite Hnone.
    - reflexivity.
    - by destruct (dict_get "name" d ≫= str_validate).
    - destruct (dict_get "name" d ≫= str_validate); [simpl|done].
      destruct (dict_get "email" d ≫= EmailStr_validate); [simpl|done].
      by destruct (match dict_get "company" d with
                   | Some VNone | None => Some None
                   | Some v => Some <$> str_validate v
                   end). }
  unfold post_api_consultation. by rewrite Hv.
Qed.


(** ** Sample runs *)

(** With the relay up, the handler answers with the success body after
    two full cycles. *)
Example run_relay_up :
  respond (submit_consultation sample_cfg sample_request world_up).1
    = Response200 (success_body sample_now) /\
  transcript (submit_consultation sample_cfg sample_request world_up).2
    = full_cycle sample_cfg
        (notification_message sample_cfg sample_request sample_now sample_now)
      ++ full_cycle sample_cfg (confirmation_message sample_cfg sample_request).
Proof. split; reflexivity. Qed.

(** A connection that carries both messages is what [separate_cycles]
    refuses. *)
Example reuse_is_refused :
  separate_cycles
    [Called (SMTP_connect "smtp.example.org" 587) None;
     Called SMTP_starttls None;
     Called (SMTP_login "bot@example.org" "app-password") None;
     Called (SMTP_send_message
               (notification_message sample_cfg sample_request sample_now sample_now))
       None;
     Called (SMTP_send_message (confirmation_message sample_cfg sample_request)) None;
     Called SMTP_quit None;
     Closed] = false.
Proof. reflexivity. Qed.

(** One e-mail out of two is a success for the caller. *)
Example run_relay_first_down :
  respond (submit_consultation sample_cfg sample_request world_first_down).1
    = Response200 (success_body sample_now) /\
  log (submit_consultation sample_cfg sample_request world_first_down).2
    = [(INFO, "Received consultation request from ann@example.org");
       (ERROR, "Failed to send email notification: [Errno 111] Connection refused");
       (INFO, "Confirmation email sent to ann@example.org")].
Proof. split; reflexivity. Qed.

(** With the relay down, the caller gets the generic error; the log keeps
    what happened. *)
Example run_relay_down :
  submit_consultation sample_cfg sample_request world_down
    = (Raised (HTTPException 500 generic_detail),
       {| relay := relay_down;
          transcript :=
            [Called (SMTP_connect "smtp.example.org" 587)
               (Some (mk_fault OSError "[Errno 111] Connection refused"));
             Called (SMTP_connect "smtp.example.org" 587)
               (Some (mk_fault OSError "[Errno 111] Connection refused"))];
          log :=
            [(INFO, "Received consultation request from ann@example.org");
             (ERROR, "Failed to send email notification: [Errno 111] Connection refused");
             (ERROR, "Failed to send confirmation email: [Errno 111] Connection refused");
             (ERROR, "Error processing consultation request: 500: Failed to process consultation request. Please try again later.")];
          clock := fun _ => sample_now;
          ticks := 2 |}).
Proof. reflexivity. Qed.

(** A valid body reaches the handler. *)
Example run_good_body :
  (post_api_consultation sample_str_validate sample_EmailStr_validate
     sample_cfg good_body world_up).1
    = Response200 (success_body sample_now).
Proof. reflexivity. Qed.

Example isoformat_sample : isoformat sample_now = "2024-02-29T07:08:09.001500".
Proof. reflexivity. Qed.

Example strftime_sample : strftime sample_now = "2024-02-29 07:08:09".
Proof. reflexivity. Qed.

Example py_int_samples :
  py_int "587" = Normal 587 /\ py_int " 2_5 " = Normal 25 /\
  py_int "-1" = Normal (-1) /\
  py_int "smtp" = Raised (ValueError "invalid literal for int() with base 10: 'smtp'").
Proof. repeat split; reflexivity. Qed.

(** ** Witnesses *)

Lemma consultation_success_iff_one_send_witness :
  is_error_500
    (respond (submit_consultation_with broken_helper
                (send_confirmation_email sample_cfg) sample_request world_up).1) = true /\
  is_success
    (respond (submit_consultation_with broken_helper
                (send_confirmation_email sample_cfg) sample_request world_up).1) = false.
Proof.
  exact (proj2 (consultation_success_iff_one_send sample_cfg sample_request world_up)
           broken_helper (send_confirmation_email sample_cfg) eq_refl).
Defined.

Lemma invalid_email_rejected_before_send_witness :
  email_field_invalid sample_EmailStr_validate bad_email_body /\
  post_api_consultation sample_str_validate sample_EmailStr_validate
    sample_cfg bad_email_body world_up = (Response422, world_up).
Proof.
  split; [reflexivity|].
  apply (invalid_email_rejected_before_send sample_str_validate
           sample_EmailStr_validate sample_cfg bad_email_body world_up).
  reflexivity.
Defined.

Lemma company_or_placeholder_in_bodies_witness :
  (is_substring "Not provided" (notification_text sample_request (strftime sample_now)) /\
   is_substring "Not provided" (notification_html sample_request (strftime sample_now))) /\
  (is_substring "Acme" (notification_text acme_request (strftime sample_now)) /\
   is_substring "Acme" (notification_html acme_request (strftime sample_now))).
Proof.
  split.
  - apply (proj1 (proj2 (company_or_placeholder_in_bodies sample_cfg sample_request
                           sample_now sample_now))).
    reflexivity.
  - apply (proj2 (proj2 (company_or_placeholder_in_bodies sample_cfg acme_request
                           sample_now sample_now))).
    reflexivity.
Defined.

Lemma error_detail_is_generic_witness :
  respond (submit_consultation sample_cfg sample_request world_down).1
    = ResponseError 500 generic_detail /\
  respond (submit_consultation_with broken_helper broken_helper acme_request world_up).1
    = ResponseError 500 generic_detail /\
  (500 = 500 /\ generic_detail = generic_detail /\ 500 = 500 /\
   generic_detail = generic_detail).
Proof.
  split; [reflexivity|]. split; [reflexivity|].
  apply (error_detail_is_generic
           (send_email_notification sample_cfg) (send_confirmation_email sample_cfg)
           sample_request world_down
           broken_helper broken_helper acme_request world_up
           500 generic_detail 500 generic_detail); reflexivity.
Defined.

Lemma both_failed_detail_is_masked_witness :
  (submit_consultation_try (send_email_notification sample_cfg)
     (send_confirmation_email sample_cfg) sample_request world_down).1
    = Raised (HTTPException 500 both_failed_detail) /\
  respond (submit_consultation sample_cfg sample_request world_down).1
    = ResponseError 500 generic_detail.
Proof.
  pose proof (proj2 (both_failed_detail_is_masked sample_cfg sample_request world_down)
                _ _ eq_refl eq_refl) as (Htry & _ & _ & Hresp).
  split; [by rewrite Htry|exact Hresp].
Defined.

Lemma health_check_healthy_with_timestamp_witness :
  valid_datetime sample_now = true /\
  parse_iso8601 (isoformat sample_now) = Some sample_now.
Proof.
  split; [reflexivity|].
  apply (proj2 (health_check_healthy_with_timestamp world_up)).
  reflexivity.
Defined.

Lemma email_config_variables_and_defaults_witness :
  exists cfg,
    EMAIL_CONFIG {[ "SENDER_EMAIL" := "bot@example.org" ]} = Normal cfg /\
    smtp_port cfg = 587.
Proof.
  apply (proj2 (proj2 (email_config_variables_and_defaults
                         {[ "SENDER_EMAIL" := "bot@example.org" ]}))).
  reflexivity.
Defined.

(** ** Witnesses of the further properties *)

(** A QUIT that the relay refuses turns two delivered mails into an
    HTTP 500. *)
Example run_quit_refused :
  respond (submit_consultation sample_cfg sample_request
             (world_of (relay_quit_fails quit_refused))).1
    = ResponseError 500 generic_detail /\
  List.filter is_message
    (transcript (submit_consultation sample_cfg sample_request
                   (world_of (relay_quit_fails quit_refused))).2)
    = [Called (SMTP_send_message
                 (notification_message sample_cfg sample_request sample_now sample_now))
         None;
       Called (SMTP_send_message (confirmation_message sample_cfg sample_request)) None].
Proof. split; reflexivity. Qed.

Lemma only_composed_messages_witness :
  In (Called (SMTP_send_message (confirmation_message sample_cfg sample_request)) None)
     (new_events world_up (submit_consultation sample_cfg sample_request world_up).2) /\
  (confirmation_message sample_cfg sample_request
     = notification_message sample_cfg sample_request sample_now sample_now \/
   confirmation_message sample_cfg sample_request
     = confirmation_message sample_cfg sample_request).
Proof.
  assert (Hin :
    In (Called (SMTP_send_message (confirmation_message sample_cfg sample_request)) None)
       (new_events world_up (submit_consultation sample_cfg sample_request world_up).2)).
  { vm_compute. tauto. }
  split; [exact Hin|].
  exact (only_composed_messages sample_cfg sample_request world_up _ _ Hin).
Defined.

Lemma company_shown_or_placeholder_witness :
  (is_substring "Acme" (notification_text acme_request (strftime sample_now)) /\
   is_substring "Acme" (notification_html acme_request (strftime sample_now))) /\
  (is_substring "Not provided"
     (notification_text empty_company_request (strftime sample_now)) /\
   is_substring "Not provided"
     (notification_html empty_company_request (strftime sample_now))).
Proof.
  split.
  - apply (company_shown_or_placeholder acme_request (strftime sample_now) "Acme").
    reflexivity.
  - apply (company_shown_or_placeholder empty_company_request (strftime sample_now)
             EmptyString).
    reflexivity.
Defined.



Lemma missing_field_rejected_witness :
  post_api_consultation sample_str_validate sample_EmailStr_validate sample_cfg
    no_message_body world_up = (Response422, world_up).
Proof.
  apply (missing_field_rejected sample_str_validate sample_EmailStr_validate
           sample_cfg _ world_up "message").
  - simpl. tauto.
  - reflexivity.
Defined.

